(** * dm/loader/db.go: the loader's SQL execution layer

    A shallow embedding of [DBConn] (querySQL, executeSQL, resetConn) and
    of [createConns].  The database, the metrics registry, the logger, the
    clock and the failpoint registry are the environment: every call into
    them is recorded in a trace, and what the environment answers is read
    from the [World] (the answer to the n-th call of each kind is
    arbitrary). *)

From Stdlib Require Import ZArith List String Ascii Bool Lia.
Import ListNotations.

Local Open Scope Z_scope.

(** ** Errors *)

(** terror.ErrScope *)
Inductive ErrScope : Type :=
| ScopeNotSet
| ScopeUpstream
| ScopeDownstream
| ScopeInternal.

(** Go's [error] values that this file builds or inspects.  [DriverError]
    stands for any error value produced by the driver or the network. *)
Inductive error : Type :=
| ErrDBUnExpect (msg : string)               (* terror.ErrDBUnExpect.Generate(msg) *)
| MySQLError (Number : Z) (Message : string) (* &mysql.MySQLError{Number, Message} *)
| DriverError (descr : string)
| CancellationError                           (* the context was cancelled *)
| Scoped (e : error) (scope : ErrScope).

(** Modelled from the spec: terror.WithScope is not among the sources; it
    returns "the error wrapped with a downstream scope tag". *)
Definition WithScope (e : error) (scope : ErrScope) : error := Scoped e scope.

(** The error classes of the retry decision. *)
Inductive ErrClass : Type :=
| ConnectionLost
| RetryableStatementError
| FatalStatementError.

(** retry.IsConnectionError and dbutil.IsRetryableError are not among the
    sources: they are parameters of the development. *)
Record Classifier : Type := {
  IsConnectionError : error -> bool;
  IsRetryableError : error -> bool
}.

(** The order of the two tests in the decision closures of querySQL and
    executeSQL. *)
Definition classify (cls : Classifier) (e : error) : ErrClass :=
  if IsConnectionError cls e then ConnectionLost
  else if IsRetryableError cls e then RetryableStatementError
  else FatalStatementError.

(** ** Handles and values *)

(** config.DBConfig, the part of config.SubTaskConfig that createConns reads. *)
Record DBConfig : Type := { Host : string; Port : Z; User : string }.
Record SubTaskConfig : Type := { To : DBConfig }.

(** *conn.BaseDB and *conn.BaseConn are pointers to live objects: an
    identity. *)
Record BaseDB : Type := { db_id : nat }.
Record BaseConn : Type := { conn_id : nat }.

(** *sql.Rows; [rows_err] is what its Err() method returns. *)
Record Rows : Type := { rows_id : nat; rows_err : option error }.

(** A statement argument (interface{}). *)
Inductive Arg : Type :=
| ArgInt (z : Z)
| ArgString (s : string)
| ArgNil.

(** failpoint.Value (interface{}). *)
Inductive failpoint_Value : Type :=
| ValString (s : string)
| ValInt (z : Z)
| ValBool (b : bool).

(** ** The environment *)

Inductive LogMethod : Type :=
| LogWarn
| LogError
| LogFatal
| LogErrorFilterContextCanceled.

(** One entry per call into the environment. *)
Inductive Event : Type :=
| EvGetDownstreamDB (cfg : DBConfig)
| EvGetBaseConn (db : BaseDB)
| EvForceCloseConn (db : BaseDB) (h : option BaseConn)
| EvClose (db : BaseDB)
| EvQuerySQL (h : option BaseConn) (query : string) (args : list Arg)
| EvExecuteSQL (h : option BaseConn) (name : string) (queries : list string)
               (args : list (list Arg))
| EvObserve (name sourceID : string) (cost : Z) (* queryHistogram...Observe *)
| EvInc (name sourceID : string)                 (* tidbExecutionErrorCounter...Inc *)
| EvLog (m : LogMethod) (msg : string) (retry : option Z) (err : option error)
    (* a log record: its message, its "retry" field and its error field *)
| EvWait (d : Z).                                (* one backoff wait of d ns *)

(** The answers of the environment, as streams (index 0 is the next
    answer), and the trace of the calls made so far, newest first.
    Durations are nanoseconds (time.Duration). *)
Record World : Type := mkWorld {
  env_open : nat -> BaseDB + error;          (* conn.GetDownstreamDB *)
  env_getconn : nat -> BaseConn + error;     (* BaseDB.GetBaseConn *)
  env_forceclose : nat -> option error;      (* BaseDB.ForceCloseConn *)
  env_close : nat -> option error;           (* BaseDB.Close *)
  env_query : nat -> (Rows + error) * Z;     (* BaseConn.QuerySQL and the time it took *)
  env_exec : nat -> option error * Z;        (* BaseConn.ExecuteSQL and the time it took *)
  env_done : nat -> bool;                    (* is ctx.Done() ready during the n-th wait *)
  env_failpoint : nat -> option failpoint_Value; (* LoadExecCreateTableFailed *)
  trace : list Event
}.

Definition next {A : Type} (f : nat -> A) : nat -> A := fun n => f (S n).

Definition push (ev : Event) (w : World) : World :=
  mkWorld (env_open w) (env_getconn w) (env_forceclose w) (env_close w)
          (env_query w) (env_exec w) (env_done w) (env_failpoint w)
          (ev :: trace w).

Definition GetDownstreamDB (cfg : DBConfig) (w : World) : (BaseDB + error) * World :=
  (env_open w 0%nat,
   mkWorld (next (env_open w)) (env_getconn w) (env_forceclose w) (env_close w)
           (env_query w) (env_exec w) (env_done w) (env_failpoint w)
           (EvGetDownstreamDB cfg :: trace w)).

Definition GetBaseConn (db : BaseDB) (w : World) : (BaseConn + error) * World :=
  (env_getconn w 0%nat,
   mkWorld (env_open w) (next (env_getconn w)) (env_forceclose w) (env_close w)
           (env_query w) (env_exec w) (env_done w) (env_failpoint w)
           (EvGetBaseConn db :: trace w)).

Definition ForceCloseConn (db : BaseDB) (h : option BaseConn) (w : World)
  : option error * World :=
  (env_forceclose w 0%nat,
   mkWorld (env_open w) (env_getconn w) (next (env_forceclose w)) (env_close w)
           (env_query w) (env_exec w) (env_done w) (env_failpoint w)
           (EvForceCloseConn db h :: trace w)).

Definition Close (db : BaseDB) (w : World) : option error * World :=
  (env_close w 0%nat,
   mkWorld (env_open w) (env_getconn w) (env_forceclose w) (next (env_close w))
           (env_query w) (env_exec w) (env_done w) (env_failpoint w)
           (EvClose db :: trace w)).

Definition QuerySQL (h : option BaseConn) (query : string) (args : list Arg)
           (w : World) : ((Rows + error) * Z) * World :=
  (env_query w 0%nat,
   mkWorld (env_open w) (env_getconn w) (env_forceclose w) (env_close w)
           (next (env_query w)) (env_exec w) (env_done w) (env_failpoint w)
           (EvQuerySQL h query args :: trace w)).

Definition ExecuteSQL (h : option BaseConn) (name : string) (queries : list string)
           (args : list (list Arg)) (w : World) : (option error * Z) * World :=
  (env_exec w 0%nat,
   mkWorld (env_open w) (env_getconn w) (env_forceclose w) (env_close w)
           (env_query w) (next (env_exec w)) (env_done w) (env_failpoint w)
           (EvExecuteSQL h name queries args :: trace w)).

(** failpoint.Inject evaluates the injection point once. *)
Definition failpoint_eval (w : World) : option failpoint_Value * World :=
  (env_failpoint w 0%nat,
   mkWorld (env_open w) (env_getconn w) (env_forceclose w) (env_close w)
           (env_query w) (env_exec w) (env_done w) (next (env_failpoint w))
           (trace w)).

(** The select between ctx.Done() and time.After(d): [true] when the
    context is done first. *)
Definition wait_or_done (d : Z) (w : World) : bool * World :=
  (env_done w 0%nat,
   mkWorld (env_open w) (env_getconn w) (env_forceclose w) (env_close w)
           (env_query w) (env_exec w) (next (env_done w)) (env_failpoint w)
           (EvWait d :: trace w)).

(** ** DBConn *)

Record DBConn : Type := mkDBConn {
  name : string;
  sourceID : string;
  baseConn : option BaseConn;
  resetBaseConnFn : option BaseConn -> World -> (option BaseConn * option error) * World
}.

(** The state the closures of one operation work on: the receiver (a
    pointer in the source, mutated by resetConn) and the environment. *)
Record OpState : Type := mkOp { self : DBConn; world : World }.

(** How a Go call can end without returning: Logger.Fatal ends the
    process, a failed type assertion or a negative capacity panics. *)
Inductive abort : Type :=
| Exit
| Panic.

Inductive res (A : Type) : Type :=
| Ok (a : A)
| Abort (why : abort).
Arguments Ok {A} a.
Arguments Abort {A} why.

Definition M (A : Type) : Type := OpState -> res A * OpState.

Definition ret {A : Type} (a : A) : M A := fun st => (Ok a, st).

Definition bind {A B : Type} (m : M A) (k : A -> M B) : M B :=
  fun st =>
    match m st with
    | (Ok a, st') => k a st'
    | (Abort why, st') => (Abort why, st')
    end.

Notation "x <- m ;; k" := (bind m (fun x => k))
  (at level 61, m at next level, right associativity).
Notation "' p <- m ;; k" := (bind m (fun x => let 'p := x in k))
  (at level 61, p pattern, m at next level, right associativity).

(** ctx.L().Warn / Error / ErrorFilterContextCanceled: one log record. *)
Definition log (m : LogMethod) (msg : string) (retry : option Z) (err : option error)
  : M unit :=
  fun st => (Ok tt, mkOp (self st) (push (EvLog m msg retry err) (world st))).

(** ctx.L().Fatal: the record is written and the process exits. *)
Definition fatal {A : Type} (msg : string) : M A :=
  fun st => (Abort Exit, mkOp (self st) (push (EvLog LogFatal msg None None) (world st))).

Definition emit (ev : Event) : M unit :=
  fun st => (Ok tt, mkOp (self st) (push ev (world st))).

(** resetConn (db.go:198-205). *)
Definition resetConn : M (option error) :=
  fun st =>
    let conn := self st in
    let '((newConn, err), w') := resetBaseConnFn conn (baseConn conn) (world st) in
    match err with
    | Some e => (Ok (Some e), mkOp conn w')
    | None =>
        (Ok None,
         mkOp (mkDBConn (name conn) (sourceID conn) newConn (resetBaseConnFn conn)) w')
    end.

(** ** The retry strategy *)

Definition Second : Z := 1000000000.

(** retry.backoffStrategy *)
Inductive backoffStrategy : Type :=
| Stable
| LinearIncrease.

(** retry.Params, as querySQL and executeSQL fill it. *)
Record Params : Type := {
  RetryCount : Z;
  FirstRetryDuration : Z;
  BackoffStrategy : backoffStrategy;
  IsRetryableFn : Z -> error -> M bool
}.

(** Modelled from the spec: the retry strategy is not among the sources.
    The delay that follows the attempt of index [i] (from 0): "Stable
    (constant inter-attempt delay)", "LinearIncrease (delay grows
    proportionally with attempt index)", starting from firstDelay. *)
Definition backoff_duration (params : Params) (i : Z) : Z :=
  match BackoffStrategy params with
  | LinearIncrease => (i + 1) * FirstRetryDuration params
  | Stable => FirstRetryDuration params
  end.

(** Modelled from the spec: BaseConn.ApplyRetryStrategy (the retry loop) is
    not among the sources.  "Attempting -> {Success, ConnectionLost,
    RetryableError, FatalError}": each attempt runs the operation; a
    failed attempt is handed to the decision function; when it answers
    "retry" the loop waits the backoff delay and attempts again "if budget
    remains", otherwise it stops and surfaces the error of the attempt;
    when the budget is exhausted the last observed error is returned;
    "cancellation aborts the retry loop at the next suspension point and
    yields a cancellation-classified error".  [fuel] is the number of
    attempts left, [i] the index of the next attempt, [ret0] and [err0]
    the results of the previous attempt. *)
Fixpoint Apply_from {R : Type} (fuel : nat) (i : Z) (ret0 : option R)
         (err0 : option error) (params : Params)
         (operateFn : M (option R * option error))
  : M (option R * Z * option error) :=
  match fuel with
  | O => ret (ret0, i, err0)
  | S fuel' =>
      '(r, err) <- operateFn ;;
      match err with
      | None => ret (r, i, None)
      | Some e =>
          retryable <- IsRetryableFn params i e ;;
          if retryable : bool then
            fun st =>
              let '(done, w) := wait_or_done (backoff_duration params i) (world st) in
              if done : bool
              then (Ok (r, i, Some CancellationError), mkOp (self st) w)
              else Apply_from fuel' (i + 1) r (Some e) params operateFn (mkOp (self st) w)
          else ret (r, i, Some e)
      end
  end.

Definition ApplyRetryStrategy {R : Type} (params : Params)
           (operateFn : M (option R * option error))
  : M (option R * Z * option error) :=
  Apply_from (Z.to_nat (RetryCount params)) 0 None None params operateFn.

(** ** querySQL (db.go:55-118) *)

Definition ErrInvalidConn : error := ErrDBUnExpect "database connection not valid".

Section Operations.

Variable cls : Classifier.

(** The IsRetryableFn closure of querySQL (db.go:64-84). *)
Definition querySQL_IsRetryableFn (retryTime : Z) (err : error) : M bool :=
  if IsConnectionError cls err then
    rerr <- resetConn ;;
    match rerr with
    | Some e =>
        _ <- log LogError "reset connection failed" (Some retryTime) (Some e) ;;
        ret false
    | None => ret true
    end
  else if IsRetryableError cls err then
    _ <- log LogWarn "query statement" (Some retryTime) (Some err) ;;
    ret true
  else ret false.

Definition querySQL_params : Params :=
  {| RetryCount := 10;
     FirstRetryDuration := Second;
     BackoffStrategy := Stable;
     IsRetryableFn := querySQL_IsRetryableFn |}.

(** The operation closure of querySQL (db.go:90-109).  [ds > 1] on the
    float seconds is [cost > Second] on the nanoseconds. *)
Definition querySQL_operateFn (query : string) (args : list Arg)
  : M (option Rows * option error) :=
  fun st =>
    let conn := self st in
    let '((r, cost), w1) := QuerySQL (baseConn conn) query args (world st) in
    match r with
    | inr err => (Ok (None, Some err), mkOp conn w1)
    | inl rows =>
        match rows_err rows with
        | Some e => (Ok (Some rows, Some e), mkOp conn w1)
        | None =>
            let w2 := push (EvObserve (name conn) (sourceID conn) cost) w1 in
            let w3 := if Second <? cost
                      then push (EvLog LogWarn "query statement too slow" None None) w2
                      else w2 in
            (Ok (Some rows, None), mkOp conn w3)
        end
    end.

(** A nil receiver is [None]; the receiver after the call is returned with
    the result and the environment. *)
Definition querySQL (conn : option DBConn) (query : string) (args : list Arg)
           (w : World) : res (option Rows * option error) * option DBConn * World :=
  match conn with
  | None => (Ok (None, Some ErrInvalidConn), None, w)
  | Some c =>
      match baseConn c with
      | None => (Ok (None, Some ErrInvalidConn), Some c, w)
      | Some _ =>
          match ApplyRetryStrategy querySQL_params (querySQL_operateFn query args)
                                   (mkOp c w) with
          | (Ok (_, _, Some err), st) =>
              (Ok (None, Some err), Some (self st),
               push (EvLog LogErrorFilterContextCanceled
                           "query statement failed after retry" None (Some err))
                    (world st))
          | (Ok (r, _, None), st) => (Ok (r, None), Some (self st), world st)
          | (Abort why, st) => (Abort why, Some (self st), world st)
          end
      end
  end.

(** ** executeSQL (db.go:120-195) *)

(** The IsRetryableFn closure of executeSQL (db.go:133-154). *)
Definition executeSQL_IsRetryableFn (retryTime : Z) (err : error) : M bool :=
  fun st =>
    (_ <- emit (EvInc (name (self st)) (sourceID (self st))) ;;
     if IsConnectionError cls err then
       rerr <- resetConn ;;
       match rerr with
       | Some e =>
           _ <- log LogError "reset connection failed" (Some retryTime) (Some e) ;;
           ret false
       | None => ret true
       end
     else if IsRetryableError cls err then
       _ <- log LogWarn "execute statements" (Some retryTime) (Some err) ;;
       ret true
     else ret false) st.

Definition executeSQL_params : Params :=
  {| RetryCount := 10;
     FirstRetryDuration := 2 * Second;
     BackoffStrategy := LinearIncrease;
     IsRetryableFn := executeSQL_IsRetryableFn |}.

End Operations.

(** strconv.ParseUint(s, 10, 16): a non-empty string of decimal digits
    whose value fits 16 bits. *)
Definition digit_of (c : ascii) : option Z :=
  let n := Z.of_nat (nat_of_ascii c) in
  if (48 <=? n) && (n <=? 57) then Some (n - 48) else None.

Fixpoint parse_digits (s : string) (acc : Z) : option Z :=
  match s with
  | EmptyString => Some acc
  | String c s' =>
      match digit_of c with
      | Some d => parse_digits s' (10 * acc + d)
      | None => None
      end
  end.

Definition ParseUint_10_16 (s : string) : option Z :=
  match s with
  | EmptyString => None
  | String _ _ =>
      match parse_digits s 0 with
      | Some n => if n <=? 65535 then Some n else None
      | None => None
      end
  end.

(** strings.Contains *)
Fixpoint Contains (s substr : string) : bool :=
  if String.prefix substr s then true
  else match s with
       | EmptyString => false
       | String _ s' => Contains s' substr
       end.

(** The body of failpoint.Inject("LoadExecCreateTableFailed", ...) at
    db.go:163-173, for an armed point of value [val]; [err] is the error
    of the ExecuteSQL call. *)
Definition LoadExecCreateTableFailed (queries : list string) (err : option error)
           (val : failpoint_Value) : M (option error) :=
  match val with
  | ValString s =>
      match ParseUint_10_16 s with
      | None => fatal "failpoint LoadExecCreateTableFailed's value is invalid"
      | Some errCode =>
          match queries with
          | [q] =>
              if Contains q "CREATE TABLE" then
                let err' := MySQLError (errCode mod 65536) "" in
                _ <- log LogWarn "executeSQL failed" None (Some err') ;;
                ret (Some err')
              else ret err
          | _ => ret err
          end
      end
  | _ => fun st => (Abort Panic, st)
  end.

(** The operation closure of executeSQL (db.go:160-186); it returns a nil
    value with the error. *)
Definition executeSQL_operateFn (queries : list string) (args : list (list Arg))
  : M (option unit * option error) :=
  fun st =>
    let conn := self st in
    let '((err0, cost), w1) :=
      ExecuteSQL (baseConn conn) (name conn) queries args (world st) in
    let '(fp, w2) := failpoint_eval w1 in
    (err <- match fp with
            | Some val => LoadExecCreateTableFailed queries err0 val
            | None => ret err0
            end ;;
     match err with
     | None =>
         if Second <? cost
         then _ <- log LogWarn "execute transaction too slow" None None ;;
              ret (None, None)
         else ret (None, None)
     | Some e => ret (None, Some e)
     end) (mkOp conn w2).

Definition executeSQL (cls : Classifier) (conn : option DBConn) (queries : list string)
           (args : list (list Arg)) (w : World)
  : res (option error) * option DBConn * World :=
  match queries with
  | [] => (Ok None, conn, w)
  | _ :: _ =>
      match conn with
      | None => (Ok (Some ErrInvalidConn), None, w)
      | Some c =>
          match baseConn c with
          | None => (Ok (Some ErrInvalidConn), Some c, w)
          | Some _ =>
              match ApplyRetryStrategy (executeSQL_params cls)
                                       (executeSQL_operateFn queries args)
                                       (mkOp c w) with
              | (Ok (_, _, Some err), st) =>
                  (Ok (Some err), Some (self st),
                   push (EvLog LogErrorFilterContextCanceled
                               "execute statements failed after retry" None (Some err))
                        (world st))
              | (Ok (_, _, None), st) => (Ok None, Some (self st), world st)
              | (Abort why, st) => (Abort why, Some (self st), world st)
              end
          end
      end
  end.

(** ** createConns (db.go:207-235) *)

(** The resetBaseConnFn closure built for each connection (db.go:225-231). *)
Definition pool_resetBaseConnFn (baseDB : BaseDB) (baseConn : option BaseConn)
           (w : World) : (option BaseConn * option error) * World :=
  let '(err, w1) := ForceCloseConn baseDB baseConn w in
  let w2 := match err with
            | Some _ => push (EvLog LogWarn "failed to close baseConn in reset" None None) w1
            | None => w1
            end in
  match GetBaseConn baseDB w2 with
  | (inl c, w3) => ((Some c, None), w3)
  | (inr e, w3) => ((None, Some e), w3)
  end.

(** The for loop of createConns, [n] iterations left. *)
Fixpoint createConns_loop (n : nat) (baseDB : BaseDB) (name sourceID : string)
         (conns : list DBConn) (w : World)
  : (option BaseDB * list DBConn * option error) * World :=
  match n with
  | O => ((Some baseDB, conns, None), w)
  | S n' =>
      match GetBaseConn baseDB w with
      | (inr err, w1) =>
          let '(terr, w2) := Close baseDB w1 in
          let w3 := match terr with
                    | Some te => push (EvLog LogError "failed to close baseDB" None (Some te)) w2
                    | None => w2
                    end in
          ((None, [], Some (WithScope err ScopeDownstream)), w3)
      | (inl c, w1) =>
          createConns_loop n' baseDB name sourceID
            (conns ++ [mkDBConn name sourceID (Some c) (pool_resetBaseConnFn baseDB)]) w1
      end
  end.

(** make([]*DBConn, 0, workerCount) panics on a negative capacity. *)
Definition createConns (cfg : SubTaskConfig) (name sourceID : string)
           (workerCount : Z) (w : World)
  : res (option BaseDB * list DBConn * option error) * World :=
  match GetDownstreamDB (To cfg) w with
  | (inr err, w1) => (Ok (None, [], Some (WithScope err ScopeDownstream)), w1)
  | (inl baseDB, w1) =>
      if workerCount <? 0 then (Abort Panic, w1)
      else
        let '(r, w2) :=
          createConns_loop (Z.to_nat workerCount) baseDB name sourceID [] w1 in
        (Ok r, w2)
  end.

(** ** Reading a run *)

(** [conn == nil || conn.baseConn == nil] *)
Definition uninitialized (conn : option DBConn) : bool :=
  match conn with
  | None => true
  | Some c => match baseConn c with None => true | Some _ => false end
  end.

(** The number of QuerySQL and ExecuteSQL calls in a trace. *)
Fixpoint db_calls (t : list Event) : nat :=
  match t with
  | [] => 0
  | EvQuerySQL _ _ _ :: t' => S (db_calls t')
  | EvExecuteSQL _ _ _ _ :: t' => S (db_calls t')
  | _ :: t' => db_calls t'
  end.

(** The labels of the execution-error counter increments in a trace. *)
Fixpoint incs (t : list Event) : list (string * string) :=
  match t with
  | [] => []
  | EvInc nm sid :: t' => (nm, sid) :: incs t'
  | _ :: t' => incs t'
  end.

(** The query-latency observations in a trace. *)
Fixpoint observes (t : list Event) : list (string * string * Z) :=
  match t with
  | [] => []
  | EvObserve nm sid cost :: t' => (nm, sid, cost) :: observes t'
  | _ :: t' => observes t'
  end.

(** The backoff waits in a trace. *)
Fixpoint waits (t : list Event) : list Z :=
  match t with
  | [] => []
  | EvWait d :: t' => d :: waits t'
  | _ :: t' => waits t'
  end.

(** Events that are no statement call, no metric and no wait. *)
Definition quiet (evs : list Event) : Prop :=
  db_calls evs = 0%nat /\ incs evs = [] /\ observes evs = [] /\ waits evs = [].

(** A recovery capability that only adds to the trace, and adds no
    statement call, metric or wait of its own. *)
Definition quiet_reset
           (f : option BaseConn -> World -> (option BaseConn * option error) * World)
  : Prop :=
  forall h w, exists evs, trace (snd (f h w)) = evs ++ trace w /\ quiet evs.

(** The error an attempt of querySQL ends with, from the answer of the
    environment to its QuerySQL call (db.go:92-96). *)
Definition query_attempt_err (o : (Rows + error) * Z) : option error :=
  match fst o with
  | inr e => Some e
  | inl rows => rows_err rows
  end.

(** The error an attempt of executeSQL ends with, from the value of the
    injection point and the error of its ExecuteSQL call (db.go:162-173). *)
Definition execute_attempt_err (queries : list string) (fp : option failpoint_Value)
           (err0 : option error) : res (option error) :=
  match fp with
  | None => Ok err0
  | Some (ValString s) =>
      match ParseUint_10_16 s with
      | None => Abort Exit
      | Some errCode =>
          match queries with
          | [q] => if Contains q "CREATE TABLE"
                   then Ok (Some (MySQLError (errCode mod 65536) ""))
                   else Ok err0
          | _ => Ok err0
          end
      end
  | Some _ => Abort Panic
  end.

(** The delays of [m] successive waits of a retry loop whose first attempt
    has index [i], the latest first (as in the trace). *)
Definition delays (params : Params) (i : Z) (m : nat) : list Z :=
  rev (map (fun j => backoff_duration params (i + Z.of_nat j)) (seq 0 m)).

(** 1 when a run ended with a success or was cut by an abort, 0 when it
    ended with an error. *)
Definition last_not_failed {A B : Type} (r : res (A * B * option error)) : nat :=
  match r with
  | Ok (_, _, Some _) => 0
  | _ => 1
  end.

(** 1 when executeSQL returned nil or was cut by an abort, 0 when it
    returned an error. *)
Definition not_failed (r : res (option error)) : nat :=
  match r with
  | Ok (Some _) => 0
  | _ => 1
  end.

(** The same environment with the injection point not armed. *)
Definition disarmed (w : World) : World :=
  mkWorld (env_open w) (env_getconn w) (env_forceclose w) (env_close w)
          (env_query w) (env_exec w) (env_done w) (fun _ => None) (trace w).

(** ** Sample environments *)

Definition no_retry : Classifier :=
  {| IsConnectionError := fun _ => false; IsRetryableError := fun _ => false |}.

(** A classifier in the shape of the real ones: the driver's "invalid
    connection" is a connection error; lock wait timeout (1205) and
    deadlock (1213) are retryable. *)
Definition sample_classifier : Classifier :=
  {| IsConnectionError :=
       fun e => match e with
                | DriverError d => String.eqb d "invalid connection"
                | _ => false
                end;
     IsRetryableError :=
       fun e => match e with
                | MySQLError n _ => (n =? 1205) || (n =? 1213)
                | _ => false
                end |}.

Definition sample_cfg : SubTaskConfig :=
  {| To := {| Host := "127.0.0.1"; Port := 4000; User := "root" |} |}.

(** A connection as createConns builds it. *)
Definition sample_conn : DBConn :=
  mkDBConn "worker" "mysql-01" (Some {| conn_id := 0 |})
           (pool_resetBaseConnFn {| db_id := 0 |}).

(** A database that answers every call with success. *)
Definition healthy_world : World :=
  mkWorld (fun _ => inl {| db_id := 0 |})
          (fun n => inl {| conn_id := n |})
          (fun _ => None)
          (fun _ => None)
          (fun n => (inl {| rows_id := n; rows_err := None |}, 0))
          (fun _ => (None, 0))
          (fun _ => false)
          (fun _ => None)
          [].

(** A database on which every statement is a deadlock victim. *)
Definition deadlock_world : World :=
  mkWorld (fun _ => inl {| db_id := 0 |})
          (fun n => inl {| conn_id := S n |})
          (fun _ => None)
          (fun _ => None)
          (fun _ => (inr (MySQLError 1213 "Deadlock found"), 0))
          (fun _ => (Some (MySQLError 1213 "Deadlock found"), 0))
          (fun _ => false)
          (fun _ => None)
          [].

(** A database whose connections are gone and cannot be replaced. *)
Definition refused_world : World :=
  mkWorld (fun _ => inl {| db_id := 0 |})
          (fun _ => inr (DriverError "dial tcp: connection refused"))
          (fun _ => None)
          (fun _ => None)
          (fun _ => (inr (DriverError "invalid connection"), 0))
          (fun _ => (Some (DriverError "invalid connection"), 0))
          (fun _ => false)
          (fun _ => None)
          [].

Definition err_invalid_conn : error := DriverError "invalid connection".
Definition err_refused : error := DriverError "dial tcp: connection refused".

(** [refused_world] after the failed recovery that follows one failed
    attempt of querySQL, resp. of executeSQL, on [sample_conn]. *)
Definition refused_after_query : World :=
  snd (resetBaseConnFn sample_conn (baseConn sample_conn)
                       (snd (QuerySQL (baseConn sample_conn) "SELECT 1" []
                                      refused_world))).

Definition refused_after_execute : World :=
  snd (resetBaseConnFn
         sample_conn (baseConn sample_conn)
         (push (EvInc "worker" "mysql-01")
               (world (snd (executeSQL_operateFn ["DELETE FROM t"%string] []
                                                 (mkOp sample_conn refused_world)))))).

(** A healthy database, the injection point armed with return("1050"). *)
Definition armed_world : World :=
  mkWorld (env_open healthy_world) (env_getconn healthy_world)
          (env_forceclose healthy_world) (env_close healthy_world)
          (env_query healthy_world) (env_exec healthy_world) (env_done healthy_world)
          (fun _ => Some (ValString "1050")) [].

(** A database whose first result set carries a deferred deadlock error
    and whose later answers are clean. *)
Definition deferred_world : World :=
  mkWorld (env_open healthy_world) (env_getconn healthy_world)
          (env_forceclose healthy_world) (env_close healthy_world)
          (fun n => match n with
                    | O => (inl {| rows_id := 0;
                                   rows_err := Some (MySQLError 1213 "Deadlock found") |},
                            5)
                    | S _ => (inl {| rows_id := n; rows_err := None |}, 7)
                    end)
          (env_exec healthy_world) (env_done healthy_world)
          (env_failpoint healthy_world) [].

(** ** Scope (db.go:47-53) *)

Section ScopeOf.

(** The Scope field of conn.BaseConn, whose declaration is not among the
    sources: a parameter. *)
Variable BaseConn_Scope : BaseConn -> ErrScope.

Definition Scope (conn : option DBConn) : ErrScope :=
  match conn with
  | None => ScopeNotSet
  | Some c =>
      match baseConn c with
      | None => ScopeNotSet
      | Some h => BaseConn_Scope h
      end
  end.

End ScopeOf.

(** ** Reading the handles of a run *)

(** The handles given to ForceCloseConn, the latest first. *)
Fixpoint force_closed (t : list Event) : list (option BaseConn) :=
  match t with
  | [] => []
  | EvForceCloseConn _ h :: t' => h :: force_closed t'
  | _ :: t' => force_closed t'
  end.

(** The handles the QuerySQL calls were made on, the latest first. *)
Fixpoint queried (t : list Event) : list (option BaseConn) :=
  match t with
  | [] => []
  | EvQuerySQL h _ _ :: t' => h :: queried t'
  | _ :: t' => queried t'
  end.

(** The handle a connection of the pool holds after [j] successful
    recoveries started from connection [c] in environment [w]: its own,
    then the successive answers of GetBaseConn. *)
Definition held (c : DBConn) (w : World) (j : nat) : option BaseConn :=
  match j with
  | O => baseConn c
  | S j' => match env_getconn w j' with
            | inl h => Some h
            | inr _ => None
            end
  end.

(** [n] calls of resetConn in a row. *)
Fixpoint resetConn_times (n : nat) (st : OpState) : OpState :=
  match n with
  | O => st
  | S n' => resetConn_times n' (snd (resetConn st))
  end.

(** ** More sample environments *)

(** A database that drops the connection on the first three statements. *)
Definition lossy_world : World :=
  mkWorld (fun _ => inl {| db_id := 0 |})
          (fun n => inl {| conn_id := S n |})
          (fun _ => None)
          (fun _ => None)
          (fun n => if (n <? 3)%nat
                    then (inr (DriverError "invalid connection"), 0)
                    else (inl {| rows_id := n; rows_err := None |}, 0))
          (fun n => if (n <? 3)%nat
                    then (Some (DriverError "invalid connection"), 0)
                    else (None, 0))
          (fun _ => false)
          (fun _ => None)
          [].

(** A database on which every statement hits a duplicate key. *)
Definition duplicate_world : World :=
  mkWorld (fun _ => inl {| db_id := 0 |})
          (fun n => inl {| conn_id := S n |})
          (fun _ => None)
          (fun _ => None)
          (fun _ => (inr (MySQLError 1062 "Duplicate entry"), 0))
          (fun _ => (Some (MySQLError 1062 "Duplicate entry"), 0))
          (fun _ => false)
          (fun _ => None)
          [].

(** A healthy database, the injection point armed with a value that is
    no number, resp. no string. *)
Definition misarmed_world : World :=
  mkWorld (env_open healthy_world) (env_getconn healthy_world)
          (env_forceclose healthy_world) (env_close healthy_world)
          (env_query healthy_world) (env_exec healthy_world) (env_done healthy_world)
          (fun _ => Some (ValString "ER_TABLE_EXISTS")) [].

Definition int_armed_world : World :=
  mkWorld (env_open healthy_world) (env_getconn healthy_world)
          (env_forceclose healthy_world) (env_close healthy_world)
          (env_query healthy_world) (env_exec healthy_world) (env_done healthy_world)
          (fun _ => Some (ValInt 1050)) [].

(** Handles that all carry the downstream scope. *)
Definition scope_downstream (h : BaseConn) : ErrScope := ScopeDownstream.

(** The handles the ExecuteSQL calls were made on, the latest first. *)
Fixpoint executed (t : list Event) : list (option BaseConn) :=
  match t with
  | [] => []
  | EvExecuteSQL h _ _ _ :: t' => h :: executed t'
  | _ :: t' => executed t'
  end.

(** A ready connection of the pool over [db], with its labels: it passes
    the validity test and its recovery is the closure createConns builds. *)
Definition pool_conn (db : BaseDB) (nm sid : string) (c : DBConn) : Prop :=
  uninitialized (Some c) = false /\
  resetBaseConnFn c = pool_resetBaseConnFn db /\
  name c = nm /\ sourceID c = sid.

(** * Pool construction *)

Lemma repeat_snoc_app {A : Type} (x : A) (n : nat) (l : list A) :
  repeat x n ++ x :: l = repeat x (S n) ++ l.
Proof.
  induction n as [|n IH]; simpl; [reflexivity|].
  now rewrite IH.
Qed.

Lemma createConns_loop_spec (n : nat) :
  forall (db : BaseDB) (nm sid : string) (conns : list DBConn) (w : World),
    (exists hs,
        List.length hs = n /\
        (forall k h, nth_error hs k = Some h -> env_getconn w k = inl h) /\
        fst (createConns_loop n db nm sid conns w)
        = (Some db,
           conns ++ map (fun h => mkDBConn nm sid (Some h) (pool_resetBaseConnFn db)) hs,
           None) /\
        trace (snd (createConns_loop n db nm sid conns w))
        = repeat (EvGetBaseConn db) n ++ trace w)
    \/
    (exists k err logs,
        (k < n)%nat /\
        env_getconn w k = inr err /\
        fst (createConns_loop n db nm sid conns w)
        = (None, [], Some (WithScope err ScopeDownstream)) /\
        trace (snd (createConns_loop n db nm sid conns w))
        = logs ++ EvClose db :: repeat (EvGetBaseConn db) (S k) ++ trace w /\
        (logs = [] \/
         exists te, logs = [EvLog LogError "failed to close baseDB" None (Some te)])).
Proof.
  induction n as [|n IH]; intros db nm sid conns w.
  - left. exists []. simpl. rewrite app_nil_r.
    repeat split; try reflexivity.
    intros k h Hk. destruct k; discriminate.
  - simpl. destruct (env_getconn w 0%nat) as [c|err] eqn:E0.
    + match goal with
      | |- context [createConns_loop n db nm sid ?cs ?w1] =>
          destruct (IH db nm sid cs w1) as [(hs & Hlen & Hhs & Hr & Ht)
                                           |(k & err & logs & Hk & He & Hr & Ht & Hl)]
      end.
      * left. exists (c :: hs). simpl. repeat split.
        -- now rewrite Hlen.
        -- intros k h Hk. destruct k as [|k]; simpl in Hk.
           ++ now inversion Hk; subst.
           ++ apply (Hhs k h Hk).
        -- rewrite Hr. now rewrite <- app_assoc.
        -- rewrite Ht. simpl. now rewrite (repeat_snoc_app (EvGetBaseConn db) n).
      * right. exists (S k), err, logs. repeat split.
        -- lia.
        -- exact He.
        -- exact Hr.
        -- rewrite Ht. simpl.
           now rewrite (repeat_snoc_app (EvGetBaseConn db) k).
        -- exact Hl.
    + right. exists 0%nat, err.
      destruct (env_close w 0%nat) as [te|] eqn:Ec.
      * exists [EvLog LogError "failed to close baseDB" None (Some te)].
        simpl.
        repeat split; try lia; try assumption.
        right. now exists te.
      * exists []. simpl.
        repeat split; try lia; try assumption.
        now left.
Qed.



(** * Connection reset *)

(** C6. resetConn calls the recovery capability once, on the current
    handle.  When it succeeds the new handle replaces the old one and the
    name, the sourceID and the capability are kept; when it fails its
    error is returned and the connection is what it was. *)
Theorem resetConn_swap_or_keep :
  forall st : OpState,
    let conn := self st in
    let out := resetBaseConnFn conn (baseConn conn) (world st) in
    let st' := snd (resetConn st) in
    name (self st') = name conn /\
    sourceID (self st') = sourceID conn /\
    resetBaseConnFn (self st') = resetBaseConnFn conn /\
    world st' = snd out /\
    match snd (fst out) with
    | None => fst (resetConn st) = Ok None /\ baseConn (self st') = fst (fst out)
    | Some e => fst (resetConn st) = Ok (Some e) /\ self st' = conn
    end.
Proof.
  intros [conn w]. unfold resetConn. simpl.
  destruct (resetBaseConnFn conn (baseConn conn) w) as [[newConn [e|]] w']; simpl;
    repeat split; reflexivity.
Qed.

(** * The guards of querySQL and executeSQL *)

(** C7. executeSQL with an empty statement list returns nil and leaves the
    connection and the environment (answers and trace: no database call,
    no metric, no log) as they were, whatever the connection is. *)
Theorem executeSQL_empty_noop :
  forall (cls : Classifier) (conn : option DBConn) (args : list (list Arg)) (w : World),
    executeSQL cls conn [] args w = (Ok None, conn, w).
Proof. reflexivity. Qed.

(** C3, as the code has it. On a nil connection or one with a nil handle,
    querySQL with any statement and executeSQL with any non-empty
    statement list fail with the "database connection not valid" error and
    leave the environment untouched (no call at all); executeSQL with the
    empty list returns nil there, the emptiness test coming first. *)
Theorem uninitialized_conn_rejected :
  forall (cls : Classifier) (conn : option DBConn) (query : string) (args : list Arg)
         (q0 : string) (queries : list string) (eargs : list (list Arg)) (w : World),
    uninitialized conn = true ->
    querySQL cls conn query args w = (Ok (None, Some ErrInvalidConn), conn, w) /\
    executeSQL cls conn (q0 :: queries) eargs w = (Ok (Some ErrInvalidConn), conn, w) /\
    executeSQL cls conn [] eargs w = (Ok None, conn, w).
Proof.
  intros cls [c|] query args q0 queries eargs w H; simpl in H.
  - unfold querySQL, executeSQL.
    destruct (baseConn c); [discriminate|]. repeat split.
  - repeat split.
Qed.

Lemma uninitialized_conn_rejected_witness :
  uninitialized None = true /\
  querySQL no_retry None "SELECT 1" [] healthy_world
  = (Ok (None, Some ErrInvalidConn), None, healthy_world) /\
  executeSQL no_retry None ["USE `db`"%string; "INSERT INTO t VALUES (1)"%string] []
             healthy_world
  = (Ok (Some ErrInvalidConn), None, healthy_world) /\
  executeSQL no_retry None [] [] healthy_world = (Ok None, None, healthy_world).
Proof.
  split; [reflexivity|].
  apply (uninitialized_conn_rejected no_retry None "SELECT 1" [] "USE `db`"
           ["INSERT INTO t VALUES (1)"%string] [] healthy_world).
  reflexivity.
Defined.

(** C3, counterexample: executeSQL on a nil connection with the empty
    statement list returns nil, not the invalid-connection error. *)
Lemma uninitialized_execute_empty_succeeds :
  uninitialized None = true /\
  fst (fst (executeSQL no_retry None [] [] healthy_world)) = Ok None /\
  fst (fst (executeSQL no_retry None [] [] healthy_world)) <> Ok (Some ErrInvalidConn).
Proof.
  repeat split. discriminate.
Qed.

(** * The retry loop, one attempt at a time *)

Lemma Apply_from_S {R : Type} (n : nat) (i : Z) (r0 : option R) (e0 : option error)
      (params : Params) (op : M (option R * option error)) (st : OpState) :
  Apply_from (S n) i r0 e0 params op st =
  match op st with
  | (Ok (r, None), st1) => (Ok (r, i, None), st1)
  | (Ok (r, Some e), st1) =>
      match IsRetryableFn params i e st1 with
      | (Ok true, st2) =>
          if env_done (world st2) 0%nat
          then (Ok (r, i, Some CancellationError),
                mkOp (self st2) (snd (wait_or_done (backoff_duration params i) (world st2))))
          else Apply_from n (i + 1) r (Some e) params op
                 (mkOp (self st2) (snd (wait_or_done (backoff_duration params i) (world st2))))
      | (Ok false, st2) => (Ok (r, i, Some e), st2)
      | (Abort why, st2) => (Abort why, st2)
      end
  | (Abort why, st1) => (Abort why, st1)
  end.
Proof.
  simpl. unfold bind.
  destruct (op st) as [[[r [e|]]|why] st1]; try reflexivity.
  destruct (IsRetryableFn params i e st1) as [[[|]|why] st2]; try reflexivity.
Qed.

Lemma classify_retryable (cls : Classifier) (e : error) :
  classify cls e = RetryableStatementError ->
  IsConnectionError cls e = false /\ IsRetryableError cls e = true.
Proof.
  unfold classify.
  destruct (IsConnectionError cls e); [discriminate|].
  destruct (IsRetryableError cls e); [auto|discriminate].
Qed.

Lemma classify_fatal (cls : Classifier) (e : error) :
  classify cls e = FatalStatementError ->
  IsConnectionError cls e = false /\ IsRetryableError cls e = false.
Proof.
  unfold classify.
  destruct (IsConnectionError cls e); [discriminate|].
  destruct (IsRetryableError cls e); [discriminate|auto].
Qed.

Lemma classify_connection_lost (cls : Classifier) (e : error) :
  classify cls e = ConnectionLost -> IsConnectionError cls e = true.
Proof.
  unfold classify.
  destruct (IsConnectionError cls e); [reflexivity|].
  destruct (IsRetryableError cls e); discriminate.
Qed.

(** What one attempt of querySQL returns and does, from the answer of the
    environment. *)
Lemma querySQL_operateFn_eq (query : string) (args : list Arg) (st : OpState) :
  querySQL_operateFn query args st =
  let w1 := snd (QuerySQL (baseConn (self st)) query args (world st)) in
  match env_query (world st) 0%nat with
  | (inr err, _) => (Ok (None, Some err), mkOp (self st) w1)
  | (inl rows, cost) =>
      match rows_err rows with
      | Some e => (Ok (Some rows, Some e), mkOp (self st) w1)
      | None =>
          let w2 := push (EvObserve (name (self st)) (sourceID (self st)) cost) w1 in
          (Ok (Some rows, None),
           mkOp (self st)
                (if Second <? cost
                 then push (EvLog LogWarn "query statement too slow" None None) w2
                 else w2))
      end
  end.
Proof.
  unfold querySQL_operateFn, QuerySQL. simpl.
  destruct (env_query (world st) 0%nat) as [[rows|err] cost]; reflexivity.
Qed.

Lemma querySQL_operateFn_failed (query : string) (args : list Arg) (st : OpState)
      (e : error) :
  query_attempt_err (env_query (world st) 0%nat) = Some e ->
  exists r,
    querySQL_operateFn query args st
    = (Ok (r, Some e),
       mkOp (self st) (snd (QuerySQL (baseConn (self st)) query args (world st)))).
Proof.
  intros H. rewrite querySQL_operateFn_eq. unfold query_attempt_err in H.
  destruct (env_query (world st) 0%nat) as [[rows|err] cost]; simpl in *.
  - rewrite H. now eexists.
  - inversion H; subst. now eexists.
Qed.

(** The decision of querySQL on a retryable statement error: a warning,
    then "retry". *)
Lemma querySQL_IsRetryableFn_retryable (cls : Classifier) (i : Z) (e : error)
      (st : OpState) :
  classify cls e = RetryableStatementError ->
  querySQL_IsRetryableFn cls i e st
  = (Ok true,
     mkOp (self st) (push (EvLog LogWarn "query statement" (Some i) (Some e)) (world st))).
Proof.
  intros H. apply classify_retryable in H as [Hc Hr].
  unfold querySQL_IsRetryableFn. rewrite Hc, Hr. reflexivity.
Qed.

Lemma executeSQL_IsRetryableFn_retryable (cls : Classifier) (i : Z) (e : error)
      (st : OpState) :
  classify cls e = RetryableStatementError ->
  executeSQL_IsRetryableFn cls i e st
  = (Ok true,
     mkOp (self st)
          (push (EvLog LogWarn "execute statements" (Some i) (Some e))
                (push (EvInc (name (self st)) (sourceID (self st))) (world st)))).
Proof.
  intros H. apply classify_retryable in H as [Hc Hr].
  unfold executeSQL_IsRetryableFn. rewrite Hc, Hr. reflexivity.
Qed.

(** What one attempt of executeSQL returns, from the answers of the
    environment; the attempt adds the ExecuteSQL call to the trace, and
    log records only. *)
Lemma executeSQL_operateFn_spec (queries : list string) (args : list (list Arg))
      (st : OpState) :
  let out := executeSQL_operateFn queries args st in
  fst out = match execute_attempt_err queries (env_failpoint (world st) 0%nat)
                                      (fst (env_exec (world st) 0%nat)) with
            | Ok err => Ok (None, err)
            | Abort why => Abort why
            end /\
  self (snd out) = self st /\
  (exists logs,
      trace (world (snd out))
      = logs ++ EvExecuteSQL (baseConn (self st)) (name (self st)) queries args
             :: trace (world st) /\
      quiet logs) /\
  env_exec (world (snd out)) = next (env_exec (world st)) /\
  env_done (world (snd out)) = env_done (world st) /\
  env_failpoint (world (snd out)) = next (env_failpoint (world st)).
Proof.
  unfold executeSQL_operateFn, ExecuteSQL, failpoint_eval, execute_attempt_err, quiet.
  simpl.
  destruct (env_exec (world st) 0%nat) as [err0 cost]. simpl.
  unfold bind.
  destruct (env_failpoint (world st) 0%nat) as [[s|z|b]|]; simpl;
    [destruct (ParseUint_10_16 s) as [code|]; simpl;
     [destruct queries as [|q [|q' qs]]; simpl;
      [|destruct (Contains q "CREATE TABLE"); simpl|]|]| | |];
    try (destruct err0 as [e|]; simpl);
    try (destruct (Second <? cost); simpl);
    repeat split;
    solve [exists (@nil Event); repeat split | eexists [_]; repeat split].
Qed.

Lemma db_calls_app (a b : list Event) : db_calls (a ++ b) = (db_calls a + db_calls b)%nat.
Proof.
  induction a as [|ev a IH]; simpl; [reflexivity|].
  destruct ev; simpl; rewrite IH; reflexivity.
Qed.

Lemma incs_app (a b : list Event) : incs (a ++ b) = incs a ++ incs b.
Proof.
  induction a as [|ev a IH]; simpl; [reflexivity|].
  destruct ev; simpl; rewrite IH; reflexivity.
Qed.

Lemma observes_app (a b : list Event) : observes (a ++ b) = observes a ++ observes b.
Proof.
  induction a as [|ev a IH]; simpl; [reflexivity|].
  destruct ev; simpl; rewrite IH; reflexivity.
Qed.

Lemma waits_app (a b : list Event) : waits (a ++ b) = waits a ++ waits b.
Proof.
  induction a as [|ev a IH]; simpl; [reflexivity|].
  destruct ev; simpl; rewrite IH; reflexivity.
Qed.

(** * Retryable errors on every attempt *)

Lemma querySQL_loop_all_retryable (cls : Classifier) (query : string) (args : list Arg)
      (n : nat) :
  forall (st : OpState) (i : Z) (r0 : option Rows) (e0 : option error),
    (forall j, (j < n)%nat ->
               exists e, query_attempt_err (env_query (world st) j) = Some e /\
                         classify cls e = RetryableStatementError) ->
    (forall j, (j < n)%nat -> env_done (world st) j = false) ->
    exists r st',
      Apply_from n i r0 e0 (querySQL_params cls) (querySQL_operateFn query args) st
      = (Ok (r, i + Z.of_nat n,
             match n with
             | O => e0
             | S m => query_attempt_err (env_query (world st) m)
             end), st') /\
      self st' = self st /\
      db_calls (trace (world st')) = (db_calls (trace (world st)) + n)%nat.
Proof.
  induction n as [|n IH]; intros st i r0 e0 Herr Hdone.
  - exists r0, st. simpl. rewrite Z.add_0_r, Nat.add_0_r. repeat split.
  - destruct (Herr 0%nat) as (e & He & Hc); [lia|].
    destruct (querySQL_operateFn_failed query args st e He) as [r Hop].
    rewrite Apply_from_S, Hop.
    change (IsRetryableFn (querySQL_params cls)) with (querySQL_IsRetryableFn cls).
    rewrite (querySQL_IsRetryableFn_retryable cls i e _ Hc).
    simpl. rewrite (Hdone 0%nat) by lia.
    match goal with
    | |- context [Apply_from n (i + 1) r (Some e) _ _ ?st2] =>
        destruct (IH st2 (i + 1) r (Some e)) as (r' & st' & Heq & Hself & Hcalls)
    end.
    + intros j Hj. simpl. unfold next. apply Herr. lia.
    + intros j Hj. simpl. unfold next. apply Hdone. lia.
    + exists r', st'. rewrite Heq. simpl in Hself, Hcalls. repeat split.
      * replace (i + 1 + Z.of_nat n) with (i + Z.of_nat (S n)) by lia.
        destruct n as [|m]; [rewrite He|]; reflexivity.
      * exact Hself.
      * rewrite Hcalls. lia.
Qed.

Lemma executeSQL_loop_all_retryable (cls : Classifier) (queries : list string)
      (args : list (list Arg)) (n : nat) :
  forall (st : OpState) (i : Z) (r0 : option unit) (e0 : option error),
    (forall j, (j < n)%nat ->
               exists e,
                 execute_attempt_err queries (env_failpoint (world st) j)
                                     (fst (env_exec (world st) j)) = Ok (Some e) /\
                 classify cls e = RetryableStatementError) ->
    (forall j, (j < n)%nat -> env_done (world st) j = false) ->
    exists r st',
      Apply_from n i r0 e0 (executeSQL_params cls) (executeSQL_operateFn queries args) st
      = (Ok (r, i + Z.of_nat n,
             match n with
             | O => e0
             | S m =>
                 match execute_attempt_err queries (env_failpoint (world st) m)
                                           (fst (env_exec (world st) m)) with
                 | Ok err => err
                 | Abort _ => None
                 end
             end), st') /\
      self st' = self st /\
      db_calls (trace (world st')) = (db_calls (trace (world st)) + n)%nat /\
      incs (trace (world st'))
      = repeat (name (self st), sourceID (self st)) n ++ incs (trace (world st)).
Proof.
  induction n as [|n IH]; intros st i r0 e0 Herr Hdone.
  - exists r0, st. simpl. rewrite Z.add_0_r, Nat.add_0_r. repeat split.
  - destruct (Herr 0%nat) as (e & He & Hc); [lia|].
    destruct (executeSQL_operateFn_spec queries args st)
      as (Hres & Hself1 & (logs & Htr & Hq) & Hexec & Hdn & Hfp).
    rewrite He in Hres.
    rewrite Apply_from_S.
    destruct (executeSQL_operateFn queries args st) as [ro st1]. simpl in *. subst ro.
    change (IsRetryableFn (executeSQL_params cls)) with (executeSQL_IsRetryableFn cls).
    rewrite (executeSQL_IsRetryableFn_retryable cls i e _ Hc).
    simpl. rewrite Hdn, (Hdone 0%nat) by lia.
    match goal with
    | |- context [Apply_from n (i + 1) None (Some e) _ _ ?st2] =>
        destruct (IH st2 (i + 1) None (Some e))
          as (r' & st' & Heq & Hself & Hcalls & Hincs)
    end.
    + intros j Hj. simpl. rewrite Hfp, Hexec. unfold next. apply Herr. lia.
    + intros j Hj. simpl. rewrite ?Hdn. unfold next. apply Hdone. lia.
    + exists r', st'. rewrite Heq. simpl in Hself, Hcalls, Hincs.
      destruct Hq as (Hq1 & Hq2 & _).
      rewrite Htr in Hcalls, Hincs.
      rewrite db_calls_app in Hcalls. rewrite incs_app in Hincs.
      rewrite Hq1 in Hcalls. rewrite Hq2 in Hincs. simpl in Hcalls, Hincs.
      rewrite Hself1 in Hself, Hincs.
      repeat split.
      * replace (i + 1 + Z.of_nat n) with (i + Z.of_nat (S n)) by lia.
        destruct n as [|m]; [rewrite He; reflexivity|].
        simpl. rewrite Hfp, Hexec. reflexivity.
      * exact Hself.
      * rewrite Hcalls. lia.
      * rewrite Hincs. change (?x :: repeat ?x n ++ ?l) with (repeat x (S n) ++ l).
        now rewrite <- repeat_snoc_app.
Qed.

Arguments Apply_from : simpl never.

(** C4. When the context is not cancelled during the backoff waits and
    each of the ten attempts of querySQL (of executeSQL on a non-empty
    batch) ends with a retryable statement error, the operation makes
    exactly ten database calls (RetryCount = 10) and returns the error of
    the tenth attempt. *)
Theorem retryable_on_every_attempt_exhausts_budget :
  forall (cls : Classifier) (c : DBConn) (h : BaseConn) (query : string)
         (args : list Arg) (q0 : string) (queries : list string)
         (eargs : list (list Arg)) (w : World),
    baseConn c = Some h ->
    (forall j, (j < 10)%nat -> env_done w j = false) ->
    ((forall j, (j < 10)%nat ->
                exists e, query_attempt_err (env_query w j) = Some e /\
                          classify cls e = RetryableStatementError) ->
     exists e w',
       query_attempt_err (env_query w 9%nat) = Some e /\
       querySQL cls (Some c) query args w = (Ok (None, Some e), Some c, w') /\
       db_calls (trace w') = (db_calls (trace w) + 10)%nat)
    /\
    ((forall j, (j < 10)%nat ->
                exists e,
                  execute_attempt_err (q0 :: queries) (env_failpoint w j)
                                      (fst (env_exec w j)) = Ok (Some e) /\
                  classify cls e = RetryableStatementError) ->
     exists e w',
       execute_attempt_err (q0 :: queries) (env_failpoint w 9%nat)
                           (fst (env_exec w 9%nat)) = Ok (Some e) /\
       executeSQL cls (Some c) (q0 :: queries) eargs w = (Ok (Some e), Some c, w') /\
       db_calls (trace w') = (db_calls (trace w) + 10)%nat).
Proof.
  intros cls c h query args q0 queries eargs w Hh Hdone. split; intros Herr.
  - destruct (querySQL_loop_all_retryable cls query args 10 (mkOp c w) 0 None None
                                          Herr Hdone)
      as (r & st' & Heq & Hself & Hcalls).
    destruct (Herr 9%nat) as (e & He & _); [lia|].
    unfold querySQL, ApplyRetryStrategy. rewrite Hh.
    change (Z.to_nat (RetryCount (querySQL_params cls))) with 10%nat.
    rewrite Heq. simpl in He, Hself, Hcalls |- *. rewrite He, Hself.
    eexists e, _. repeat split. simpl. exact Hcalls.
  - destruct (executeSQL_loop_all_retryable cls (q0 :: queries) eargs 10 (mkOp c w) 0
                                            None None Herr Hdone)
      as (r & st' & Heq & Hself & Hcalls & _).
    destruct (Herr 9%nat) as (e & He & _); [lia|].
    unfold executeSQL, ApplyRetryStrategy. rewrite Hh.
    change (Z.to_nat (RetryCount (executeSQL_params cls))) with 10%nat.
    rewrite Heq. cbn [world self] in He, Hself, Hcalls |- *. rewrite He, Hself.
    eexists e, _. repeat split. simpl. exact Hcalls.
Qed.

Lemma retryable_on_every_attempt_exhausts_budget_witness :
  (exists e w',
      query_attempt_err (env_query deadlock_world 9%nat) = Some e /\
      querySQL sample_classifier (Some sample_conn) "SELECT 1" [] deadlock_world
      = (Ok (None, Some e), Some sample_conn, w') /\
      db_calls (trace w') = (db_calls (trace deadlock_world) + 10)%nat)
  /\
  (exists e w',
      execute_attempt_err ["INSERT INTO t VALUES (1)"%string]
                          (env_failpoint deadlock_world 9%nat)
                          (fst (env_exec deadlock_world 9%nat)) = Ok (Some e) /\
      executeSQL sample_classifier (Some sample_conn) ["INSERT INTO t VALUES (1)"%string]
                 [] deadlock_world
      = (Ok (Some e), Some sample_conn, w') /\
      db_calls (trace w') = (db_calls (trace deadlock_world) + 10)%nat).
Proof.
  destruct (retryable_on_every_attempt_exhausts_budget
              sample_classifier sample_conn {| conn_id := 0 |} "SELECT 1" []
              "INSERT INTO t VALUES (1)" [] [] deadlock_world)
    as [Hq He].
  - reflexivity.
  - intros j _. reflexivity.
  - split.
    + apply Hq. intros j _. eexists. split; reflexivity.
    + apply He. intros j _. eexists. split; reflexivity.
Defined.

(** * Connection lost and recovery fails *)

Lemma querySQL_IsRetryableFn_reset_failed (cls : Classifier) (i : Z) (e re : error)
      (st : OpState) (h' : option BaseConn) (w2 : World) :
  classify cls e = ConnectionLost ->
  resetBaseConnFn (self st) (baseConn (self st)) (world st) = ((h', Some re), w2) ->
  querySQL_IsRetryableFn cls i e st
  = (Ok false,
     mkOp (self st) (push (EvLog LogError "reset connection failed" (Some i) (Some re)) w2)).
Proof.
  intros Hc Hr. apply classify_connection_lost in Hc.
  unfold querySQL_IsRetryableFn. rewrite Hc.
  unfold bind, resetConn. rewrite Hr. reflexivity.
Qed.

Lemma executeSQL_IsRetryableFn_reset_failed (cls : Classifier) (i : Z) (e re : error)
      (st : OpState) (h' : option BaseConn) (w2 : World) :
  classify cls e = ConnectionLost ->
  resetBaseConnFn (self st) (baseConn (self st))
                  (push (EvInc (name (self st)) (sourceID (self st))) (world st))
  = ((h', Some re), w2) ->
  executeSQL_IsRetryableFn cls i e st
  = (Ok false,
     mkOp (self st) (push (EvLog LogError "reset connection failed" (Some i) (Some re)) w2)).
Proof.
  intros Hc Hr. apply classify_connection_lost in Hc.
  unfold executeSQL_IsRetryableFn. rewrite Hc.
  unfold bind, emit, resetConn. simpl. rewrite Hr. reflexivity.
Qed.

Lemma querySQL_loop_reset_failed (cls : Classifier) (query : string) (args : list Arg)
      (n : nat) (i : Z) (r0 : option Rows) (e0 : option error) (st : OpState)
      (e re : error) (h' : option BaseConn) (w2 : World) :
  query_attempt_err (env_query (world st) 0%nat) = Some e ->
  classify cls e = ConnectionLost ->
  resetBaseConnFn (self st) (baseConn (self st))
                  (snd (QuerySQL (baseConn (self st)) query args (world st)))
  = ((h', Some re), w2) ->
  exists r,
    Apply_from (S n) i r0 e0 (querySQL_params cls) (querySQL_operateFn query args) st
    = (Ok (r, i, Some e),
       mkOp (self st)
            (push (EvLog LogError "reset connection failed" (Some i) (Some re)) w2)).
Proof.
  intros He Hc Hr.
  destruct (querySQL_operateFn_failed query args st e He) as [r Hop].
  exists r. rewrite Apply_from_S, Hop.
  change (IsRetryableFn (querySQL_params cls)) with (querySQL_IsRetryableFn cls).
  rewrite (querySQL_IsRetryableFn_reset_failed
             cls i e re
             (mkOp (self st) (snd (QuerySQL (baseConn (self st)) query args (world st))))
             h' w2 Hc Hr).
  reflexivity.
Qed.

Lemma executeSQL_loop_reset_failed (cls : Classifier) (queries : list string)
      (args : list (list Arg)) (n : nat) (i : Z) (r0 : option unit)
      (e0 : option error) (st : OpState) (e re : error) (h' : option BaseConn)
      (w2 : World) :
  execute_attempt_err queries (env_failpoint (world st) 0%nat)
                      (fst (env_exec (world st) 0%nat)) = Ok (Some e) ->
  classify cls e = ConnectionLost ->
  resetBaseConnFn (self st) (baseConn (self st))
                  (push (EvInc (name (self st)) (sourceID (self st)))
                        (world (snd (executeSQL_operateFn queries args st))))
  = ((h', Some re), w2) ->
  Apply_from (S n) i r0 e0 (executeSQL_params cls) (executeSQL_operateFn queries args) st
  = (Ok (None, i, Some e),
     mkOp (self st)
          (push (EvLog LogError "reset connection failed" (Some i) (Some re)) w2)).
Proof.
  intros He Hc Hr.
  destruct (executeSQL_operateFn_spec queries args st) as (Hres & Hself & _).
  rewrite He in Hres. rewrite Apply_from_S.
  destruct (executeSQL_operateFn queries args st) as [ro st1].
  simpl in Hres, Hself, Hr. subst ro.
  change (IsRetryableFn (executeSQL_params cls)) with (executeSQL_IsRetryableFn cls).
  rewrite <- Hself in Hr.
  rewrite (executeSQL_IsRetryableFn_reset_failed cls i e re st1 h' w2 Hc Hr).
  now rewrite Hself.
Qed.

(** C2, as the code has it. When an attempt (any attempt: [n] more are
    left in the budget) fails with a connection-lost error [e] and the
    recovery capability then fails with [re], the loop stops at once, with
    no wait and no further attempt, and the error it returns is [e], the
    error of the statement; [re] goes to the "reset connection failed" log
    record only.  For a failure of the first attempt, querySQL and
    executeSQL return [e] after that single attempt. *)
Theorem reset_failure_stops_with_statement_error :
  forall (cls : Classifier) (query : string) (args : list Arg) (q0 : string)
         (queries : list string) (eargs : list (list Arg)) (e re : error),
    classify cls e = ConnectionLost ->
    (forall (n : nat) (i : Z) (r0 : option Rows) (e0 : option error) (st : OpState)
            (h' : option BaseConn) (w2 : World),
        query_attempt_err (env_query (world st) 0%nat) = Some e ->
        resetBaseConnFn (self st) (baseConn (self st))
                        (snd (QuerySQL (baseConn (self st)) query args (world st)))
        = ((h', Some re), w2) ->
        exists r,
          Apply_from (S n) i r0 e0 (querySQL_params cls)
                     (querySQL_operateFn query args) st
          = (Ok (r, i, Some e),
             mkOp (self st)
                  (push (EvLog LogError "reset connection failed" (Some i) (Some re))
                        w2)))
    /\
    (forall (n : nat) (i : Z) (r0 : option unit) (e0 : option error) (st : OpState)
            (h' : option BaseConn) (w2 : World),
        execute_attempt_err (q0 :: queries) (env_failpoint (world st) 0%nat)
                            (fst (env_exec (world st) 0%nat)) = Ok (Some e) ->
        resetBaseConnFn (self st) (baseConn (self st))
                        (push (EvInc (name (self st)) (sourceID (self st)))
                              (world (snd (executeSQL_operateFn (q0 :: queries) eargs st))))
        = ((h', Some re), w2) ->
        Apply_from (S n) i r0 e0 (executeSQL_params cls)
                   (executeSQL_operateFn (q0 :: queries) eargs) st
        = (Ok (None, i, Some e),
           mkOp (self st)
                (push (EvLog LogError "reset connection failed" (Some i) (Some re))
                      w2)))
    /\
    (forall (c : DBConn) (h : BaseConn) (w : World) (h' : option BaseConn) (w2 : World),
        baseConn c = Some h ->
        query_attempt_err (env_query w 0%nat) = Some e ->
        resetBaseConnFn c (Some h) (snd (QuerySQL (Some h) query args w))
        = ((h', Some re), w2) ->
        querySQL cls (Some c) query args w
        = (Ok (None, Some e), Some c,
           push (EvLog LogErrorFilterContextCanceled
                       "query statement failed after retry" None (Some e))
                (push (EvLog LogError "reset connection failed" (Some 0) (Some re)) w2)))
    /\
    (forall (c : DBConn) (h : BaseConn) (w : World) (h' : option BaseConn) (w2 : World),
        baseConn c = Some h ->
        execute_attempt_err (q0 :: queries) (env_failpoint w 0%nat)
                            (fst (env_exec w 0%nat)) = Ok (Some e) ->
        resetBaseConnFn c (Some h)
                        (push (EvInc (name c) (sourceID c))
                              (world (snd (executeSQL_operateFn (q0 :: queries) eargs
                                                                (mkOp c w)))))
        = ((h', Some re), w2) ->
        executeSQL cls (Some c) (q0 :: queries) eargs w
        = (Ok (Some e), Some c,
           push (EvLog LogErrorFilterContextCanceled
                       "execute statements failed after retry" None (Some e))
                (push (EvLog LogError "reset connection failed" (Some 0) (Some re)) w2))).
Proof.
  intros cls query args q0 queries eargs e re Hc. repeat split.
  - intros n i r0 e0 st h' w2 He Hr.
    apply (querySQL_loop_reset_failed cls query args n i r0 e0 st e re h' w2 He Hc Hr).
  - intros n i r0 e0 st h' w2 He Hr.
    apply (executeSQL_loop_reset_failed cls (q0 :: queries) eargs n i r0 e0 st e re h' w2
                                        He Hc Hr).
  - intros c h w h' w2 Hh He Hr.
    destruct (querySQL_loop_reset_failed cls query args 9 0 None None (mkOp c w) e re
                                         h' w2) as [r Heq]; try assumption.
    + simpl. now rewrite Hh.
    + unfold querySQL, ApplyRetryStrategy. rewrite Hh.
      change (Z.to_nat (RetryCount (querySQL_params cls))) with 10%nat.
      rewrite Heq. reflexivity.
  - intros c h w h' w2 Hh He Hr.
    unfold executeSQL, ApplyRetryStrategy. rewrite Hh.
    change (Z.to_nat (RetryCount (executeSQL_params cls))) with 10%nat.
    rewrite (executeSQL_loop_reset_failed cls (q0 :: queries) eargs 9 0 None None
                                          (mkOp c w) e re h' w2); try assumption.
    + reflexivity.
    + simpl self. now rewrite Hh.
Qed.

Lemma reset_failure_stops_with_statement_error_witness :
  classify sample_classifier err_invalid_conn = ConnectionLost /\
  (exists r,
      Apply_from 3 7 None None (querySQL_params sample_classifier)
                 (querySQL_operateFn "SELECT 1" []) (mkOp sample_conn refused_world)
      = (Ok (r, 7, Some err_invalid_conn),
         mkOp sample_conn
              (push (EvLog LogError "reset connection failed" (Some 7) (Some err_refused))
                    refused_after_query))) /\
  Apply_from 3 7 None None (executeSQL_params sample_classifier)
             (executeSQL_operateFn ["DELETE FROM t"%string] [])
             (mkOp sample_conn refused_world)
  = (Ok (None, 7, Some err_invalid_conn),
     mkOp sample_conn
          (push (EvLog LogError "reset connection failed" (Some 7) (Some err_refused))
                refused_after_execute)) /\
  querySQL sample_classifier (Some sample_conn) "SELECT 1" [] refused_world
  = (Ok (None, Some err_invalid_conn), Some sample_conn,
     push (EvLog LogErrorFilterContextCanceled
                 "query statement failed after retry" None (Some err_invalid_conn))
          (push (EvLog LogError "reset connection failed" (Some 0) (Some err_refused))
                refused_after_query)) /\
  executeSQL sample_classifier (Some sample_conn) ["DELETE FROM t"%string] []
             refused_world
  = (Ok (Some err_invalid_conn), Some sample_conn,
     push (EvLog LogErrorFilterContextCanceled
                 "execute statements failed after retry" None (Some err_invalid_conn))
          (push (EvLog LogError "reset connection failed" (Some 0) (Some err_refused))
                refused_after_execute)).
Proof.
  destruct (reset_failure_stops_with_statement_error
              sample_classifier "SELECT 1" [] "DELETE FROM t" [] []
              err_invalid_conn err_refused)
    as (H1 & H2 & H3 & H4).
  - reflexivity.
  - split; [reflexivity|]. split; [|split; [|split]].
    + apply (H1 2%nat 7 None None (mkOp sample_conn refused_world) None
                refused_after_query); reflexivity.
    + apply (H2 2%nat 7 None None (mkOp sample_conn refused_world) None
                refused_after_execute); reflexivity.
    + apply (H3 sample_conn {| conn_id := 0 |} refused_world None refused_after_query);
        reflexivity.
    + apply (H4 sample_conn {| conn_id := 0 |} refused_world None refused_after_execute);
        reflexivity.
Defined.

(** C2, counterexample: the only attempt fails with the connection error
    "invalid connection", the recovery fails with "connection refused",
    and the caller gets "invalid connection". *)
Lemma reset_failure_error_is_not_surfaced :
  classify sample_classifier err_invalid_conn = ConnectionLost /\
  query_attempt_err (env_query refused_world 0%nat) = Some err_invalid_conn /\
  snd (fst (resetBaseConnFn sample_conn (baseConn sample_conn)
                            (snd (QuerySQL (baseConn sample_conn) "SELECT 1" []
                                           refused_world)))) = Some err_refused /\
  fst (fst (querySQL sample_classifier (Some sample_conn) "SELECT 1" [] refused_world))
  = Ok (None, Some err_invalid_conn) /\
  fst (fst (querySQL sample_classifier (Some sample_conn) "SELECT 1" [] refused_world))
  <> Ok (None, Some err_refused) /\
  fst (fst (executeSQL sample_classifier (Some sample_conn) ["DELETE FROM t"%string] []
                       refused_world))
  = Ok (Some err_invalid_conn) /\
  fst (fst (executeSQL sample_classifier (Some sample_conn) ["DELETE FROM t"%string] []
                       refused_world))
  <> Ok (Some err_refused).
Proof.
  repeat split; try reflexivity; vm_compute; discriminate.
Qed.

(** * What a run adds to the trace *)

Ltac splits := repeat match goal with |- _ /\ _ => split end.

(** The recovery closure built by createConns is quiet: it force-closes,
    may log, and asks for a new handle. *)
Lemma pool_resetBaseConnFn_quiet (db : BaseDB) : quiet_reset (pool_resetBaseConnFn db).
Proof.
  intros h w. unfold pool_resetBaseConnFn, ForceCloseConn, GetBaseConn. simpl.
  destruct (env_forceclose w 0%nat) as [ce|]; simpl;
    destruct (env_getconn w 0%nat) as [c|e]; simpl.
  - exists [EvGetBaseConn db; EvLog LogWarn "failed to close baseConn in reset" None None;
            EvForceCloseConn db h]. repeat split.
  - exists [EvGetBaseConn db; EvLog LogWarn "failed to close baseConn in reset" None None;
            EvForceCloseConn db h]. repeat split.
  - exists [EvGetBaseConn db; EvForceCloseConn db h]. repeat split.
  - exists [EvGetBaseConn db; EvForceCloseConn db h]. repeat split.
Qed.

Lemma resetConn_quiet (st : OpState) :
  quiet_reset (resetBaseConnFn (self st)) ->
  exists r st' evs,
    resetConn st = (Ok r, st') /\
    resetBaseConnFn (self st') = resetBaseConnFn (self st) /\
    name (self st') = name (self st) /\
    sourceID (self st') = sourceID (self st) /\
    trace (world st') = evs ++ trace (world st) /\
    quiet evs.
Proof.
  intros Hq. unfold resetConn.
  destruct (Hq (baseConn (self st)) (world st)) as (evs & Ht & Hqe).
  destruct (resetBaseConnFn (self st) (baseConn (self st)) (world st))
    as [[h' [re|]] w2]; simpl in Ht;
    eexists _, _, evs; (split; [reflexivity|]); simpl; splits;
    solve [assumption | reflexivity].
Qed.

(** The decision of querySQL adds only quiet events. *)
Lemma querySQL_IsRetryableFn_quiet (cls : Classifier) (i : Z) (e : error) (st : OpState) :
  quiet_reset (resetBaseConnFn (self st)) ->
  exists b st' evs,
    querySQL_IsRetryableFn cls i e st = (Ok b, st') /\
    resetBaseConnFn (self st') = resetBaseConnFn (self st) /\
    name (self st') = name (self st) /\
    sourceID (self st') = sourceID (self st) /\
    trace (world st') = evs ++ trace (world st) /\
    quiet evs.
Proof.
  intros Hq. unfold querySQL_IsRetryableFn.
  destruct (IsConnectionError cls e).
  - destruct (resetConn_quiet st Hq) as (r & st1 & evs & Hr & Hcap & Hn & Hs & Ht & Hqe).
    unfold bind. rewrite Hr. destruct r as [re|].
    + eexists false, _, (EvLog LogError "reset connection failed" (Some i) (Some re) :: evs).
      split; [reflexivity|]. simpl. rewrite Ht. splits; try assumption; try reflexivity.
    + exists true, st1, evs. splits; solve [assumption | reflexivity].
  - destruct (IsRetryableError cls e).
    + eexists true, _, [EvLog LogWarn "query statement" (Some i) (Some e)].
      split; [reflexivity|]. repeat split.
    + exists false, st, []. repeat split.
Qed.

(** The decision of executeSQL: the counter increment comes first, and
    what follows it (recovery, log records) is quiet. *)
Lemma executeSQL_IsRetryableFn_inc_first (cls : Classifier) (i : Z) (e : error)
      (st : OpState) :
  quiet_reset (resetBaseConnFn (self st)) ->
  exists b st' evs,
    executeSQL_IsRetryableFn cls i e st = (Ok b, st') /\
    resetBaseConnFn (self st') = resetBaseConnFn (self st) /\
    name (self st') = name (self st) /\
    sourceID (self st') = sourceID (self st) /\
    trace (world st')
    = evs ++ EvInc (name (self st)) (sourceID (self st)) :: trace (world st) /\
    quiet evs.
Proof.
  intros Hq. unfold executeSQL_IsRetryableFn, bind, emit.
  destruct (IsConnectionError cls e).
  - destruct (resetConn_quiet
                (mkOp (self st) (push (EvInc (name (self st)) (sourceID (self st)))
                                      (world st))) Hq)
      as (r & st1 & evs & Hr & Hcap & Hn & Hs & Ht & Hqe).
    rewrite Hr. destruct r as [re|].
    + eexists false, _, (EvLog LogError "reset connection failed" (Some i) (Some re) :: evs).
      split; [reflexivity|]. simpl in *. rewrite Ht. splits; try assumption; try reflexivity.
    + exists true, st1, evs. simpl in *. splits; solve [assumption | reflexivity].
  - destruct (IsRetryableError cls e).
    + eexists true, _, [EvLog LogWarn "execute statements" (Some i) (Some e)].
      split; [reflexivity|]. repeat split.
    + eexists false, _, []. split; [reflexivity|]. repeat split.
Qed.

Lemma quiet_measures (evs t : list Event) :
  quiet evs ->
  db_calls (evs ++ t) = db_calls t /\ incs (evs ++ t) = incs t /\
  observes (evs ++ t) = observes t /\ waits (evs ++ t) = waits t.
Proof.
  intros (H1 & H2 & H3 & H4).
  rewrite db_calls_app, incs_app, observes_app, waits_app, H1, H2, H3, H4.
  repeat split.
Qed.

Lemma delays_S (params : Params) (i : Z) (m : nat) :
  delays params i (S m) = delays params (i + 1) m ++ [backoff_duration params i].
Proof.
  unfold delays. simpl. rewrite <- seq_shift, map_map, Z.add_0_r.
  f_equal. f_equal. apply map_ext.
  intros j. f_equal. lia.
Qed.

(** The shape of the trace of any run of the retry loop of executeSQL on a
    connection whose recovery is quiet: [k] ExecuteSQL calls, one counter
    increment for each of the [f] failed attempts, [m] waits. *)
Lemma executeSQL_loop_shape (cls : Classifier) (queries : list string)
      (args : list (list Arg)) (n : nat) :
  forall (st : OpState) (i : Z) (r0 : option unit) (e0 : option error),
    quiet_reset (resetBaseConnFn (self st)) ->
    (n = 0%nat -> e0 <> None) ->
    exists k f m,
      (m <= f)%nat /\ (k <= n)%nat /\ (0 < n -> 0 < k)%nat /\
      k = (f + last_not_failed
                 (fst (Apply_from n i r0 e0 (executeSQL_params cls)
                                  (executeSQL_operateFn queries args) st)))%nat /\
      db_calls (trace (world (snd (Apply_from n i r0 e0 (executeSQL_params cls)
                                              (executeSQL_operateFn queries args) st))))
      = (db_calls (trace (world st)) + k)%nat /\
      incs (trace (world (snd (Apply_from n i r0 e0 (executeSQL_params cls)
                                          (executeSQL_operateFn queries args) st))))
      = repeat (name (self st), sourceID (self st)) f ++ incs (trace (world st)) /\
      waits (trace (world (snd (Apply_from n i r0 e0 (executeSQL_params cls)
                                           (executeSQL_operateFn queries args) st))))
      = delays (executeSQL_params cls) i m ++ waits (trace (world st)).
Proof.
  induction n as [|n IH]; intros st i r0 e0 Hq Hn0.
  - exists 0%nat, 0%nat, 0%nat. unfold Apply_from, ret. simpl.
    destruct e0 as [e|]; [|now destruct Hn0].
    rewrite Nat.add_0_r. splits; reflexivity || lia.
  - rewrite Apply_from_S.
    destruct (executeSQL_operateFn_spec queries args st)
      as (Hres & Hself1 & (logs & Htr1 & Hql) & _).
    destruct (executeSQL_operateFn queries args st) as [ro st1].
    simpl in Hres, Hself1, Htr1.
    destruct (quiet_measures logs
                (EvExecuteSQL (baseConn (self st)) (name (self st)) queries args
                              :: trace (world st)) Hql) as (M1 & M2 & _ & M4).
    rewrite <- Htr1 in M1, M2, M4. simpl in M1, M2, M4.
    destruct (execute_attempt_err queries (env_failpoint (world st) 0%nat)
                                  (fst (env_exec (world st) 0%nat)))
      as [[e|]|why]; subst ro.
    + change (IsRetryableFn (executeSQL_params cls)) with (executeSQL_IsRetryableFn cls).
      rewrite <- Hself1 in Hq.
      destruct (executeSQL_IsRetryableFn_inc_first cls i e st1 Hq)
        as (b & st2 & evs & Hdec & Hcap2 & Hn2 & Hs2 & Htr2 & Hqe).
      rewrite Hdec.
      destruct (quiet_measures evs
                  (EvInc (name (self st1)) (sourceID (self st1)) :: trace (world st1)) Hqe)
        as (N1 & N2 & _ & N4).
      rewrite <- Htr2 in N1, N2, N4. simpl in N1, N2, N4.
      rewrite M1 in N1. rewrite M2 in N2. rewrite M4 in N4. rewrite Hself1 in N2.
      destruct b.
      * destruct (env_done (world st2) 0%nat).
        -- exists 1%nat, 1%nat, 1%nat. simpl.
           rewrite N1, N2, N4. splits; try lia; try reflexivity.
           unfold delays. simpl. now rewrite Z.add_0_r.
        -- match goal with
           | |- context [Apply_from n (i + 1) None (Some e) _ _ ?st3] =>
               destruct (IH st3 (i + 1) None (Some e))
                 as (k & f & m & Hmf & Hkn & _ & Hk & Hc & Hi & Hw);
               [simpl; now rewrite Hcap2 | discriminate |];
               destruct (Apply_from n (i + 1) None (Some e) (executeSQL_params cls)
                                    (executeSQL_operateFn queries args) st3)
                 as [ro3 st4]
           end.
           simpl in Hk, Hc, Hi, Hw |- *.
           rewrite N1 in Hc. rewrite N2, Hn2, Hs2, Hself1 in Hi. rewrite N4 in Hw.
           exists (S k), (S f), (S m). splits; try lia.
           ++ rewrite Hi. apply repeat_snoc_app.
           ++ rewrite Hw, delays_S, <- app_assoc. reflexivity.
      * exists 1%nat, 1%nat, 0%nat. simpl.
        rewrite N1, N2, N4. splits; try lia; reflexivity.
    + exists 1%nat, 0%nat, 0%nat. simpl.
      rewrite M1, M2, M4. splits; try lia; reflexivity.
    + exists 1%nat, 0%nat, 0%nat. simpl.
      rewrite M1, M2, M4. splits; try lia; reflexivity.
Qed.

(** One attempt of querySQL: one QuerySQL call, and one latency
    observation exactly when the attempt ends without error. *)
Lemma querySQL_operateFn_spec (query : string) (args : list Arg) (st : OpState) :
  self (snd (querySQL_operateFn query args st)) = self st /\
  db_calls (trace (world (snd (querySQL_operateFn query args st))))
  = S (db_calls (trace (world st))) /\
  incs (trace (world (snd (querySQL_operateFn query args st)))) = incs (trace (world st)) /\
  waits (trace (world (snd (querySQL_operateFn query args st))))
  = waits (trace (world st)) /\
  match fst (querySQL_operateFn query args st) with
  | Ok (_, None) =>
      query_attempt_err (env_query (world st) 0%nat) = None /\
      observes (trace (world (snd (querySQL_operateFn query args st))))
      = (name (self st), sourceID (self st), snd (env_query (world st) 0%nat))
          :: observes (trace (world st))
  | Ok (_, Some e) =>
      query_attempt_err (env_query (world st) 0%nat) = Some e /\
      observes (trace (world (snd (querySQL_operateFn query args st))))
      = observes (trace (world st))
  | Abort _ => False
  end.
Proof.
  rewrite querySQL_operateFn_eq. unfold query_attempt_err, QuerySQL. simpl.
  destruct (env_query (world st) 0%nat) as [[rows|err] cost]; simpl.
  - destruct (rows_err rows) as [e|]; simpl; [repeat split|].
    destruct (Second <? cost); simpl; repeat split.
  - repeat split.
Qed.

Lemma querySQL_loop_shape (cls : Classifier) (query : string) (args : list Arg)
      (n : nat) :
  forall (st : OpState) (i : Z) (r0 : option Rows) (e0 : option error),
    quiet_reset (resetBaseConnFn (self st)) ->
    (n = 0%nat -> e0 <> None) ->
    exists k m,
      (m <= k)%nat /\ (k <= n)%nat /\ (0 < n -> 0 < k)%nat /\
      db_calls (trace (world (snd (Apply_from n i r0 e0 (querySQL_params cls)
                                              (querySQL_operateFn query args) st))))
      = (db_calls (trace (world st)) + k)%nat /\
      incs (trace (world (snd (Apply_from n i r0 e0 (querySQL_params cls)
                                          (querySQL_operateFn query args) st))))
      = incs (trace (world st)) /\
      waits (trace (world (snd (Apply_from n i r0 e0 (querySQL_params cls)
                                           (querySQL_operateFn query args) st))))
      = delays (querySQL_params cls) i m ++ waits (trace (world st)) /\
      match fst (Apply_from n i r0 e0 (querySQL_params cls)
                            (querySQL_operateFn query args) st) with
      | Ok (_, _, None) =>
          exists cost,
            observes (trace (world (snd (Apply_from n i r0 e0 (querySQL_params cls)
                                                    (querySQL_operateFn query args) st))))
            = (name (self st), sourceID (self st), cost) :: observes (trace (world st))
      | _ =>
          observes (trace (world (snd (Apply_from n i r0 e0 (querySQL_params cls)
                                                  (querySQL_operateFn query args) st))))
          = observes (trace (world st))
      end.
Proof.
  induction n as [|n IH]; intros st i r0 e0 Hq Hn0.
  - exists 0%nat, 0%nat. unfold Apply_from, ret. simpl.
    destruct e0 as [e|]; [|now destruct Hn0].
    rewrite Nat.add_0_r. splits; reflexivity || lia.
  - rewrite Apply_from_S.
    destruct (querySQL_operateFn_spec query args st) as (Hself1 & M1 & M2 & M4 & Hobs).
    destruct (querySQL_operateFn query args st) as [[[r [e|]]|why] st1];
      simpl in Hself1, M1, M2, M4, Hobs; [| |contradiction].
    + destruct Hobs as [_ M3].
      change (IsRetryableFn (querySQL_params cls)) with (querySQL_IsRetryableFn cls).
      rewrite <- Hself1 in Hq.
      destruct (querySQL_IsRetryableFn_quiet cls i e st1 Hq)
        as (b & st2 & evs & Hdec & Hcap2 & Hn2 & Hs2 & Htr2 & Hqe).
      rewrite Hdec.
      destruct (quiet_measures evs (trace (world st1)) Hqe) as (N1 & N2 & N3 & N4).
      rewrite <- Htr2 in N1, N2, N3, N4.
      rewrite M1 in N1. rewrite M2 in N2. rewrite M3 in N3. rewrite M4 in N4.
      destruct b.
      * destruct (env_done (world st2) 0%nat).
        -- exists 1%nat, 1%nat. simpl.
           rewrite N1, N2, N3, N4. splits; try lia; reflexivity.
        -- match goal with
           | |- context [Apply_from n (i + 1) r (Some e) _ _ ?st3] =>
               destruct (IH st3 (i + 1) r (Some e))
                 as (k & m & Hmk & Hkn & _ & Hc & Hi & Hw & Ho);
               [simpl; now rewrite Hcap2 | discriminate |];
               destruct (Apply_from n (i + 1) r (Some e) (querySQL_params cls)
                                    (querySQL_operateFn query args) st3)
                 as [ro3 st4]
           end.
           simpl in Hc, Hi, Hw, Ho |- *.
           rewrite N1 in Hc. rewrite N2 in Hi. rewrite N4 in Hw.
           rewrite N3, Hn2, Hs2, Hself1 in Ho.
           exists (S k), (S m). splits; try lia.
           ++ exact Hi.
           ++ rewrite Hw, delays_S, <- app_assoc. reflexivity.
           ++ exact Ho.
      * exists 1%nat, 0%nat. simpl.
        rewrite N1, N2, N3, N4. splits; try lia; reflexivity.
    + destruct Hobs as [_ M3].
      exists 1%nat, 0%nat. simpl.
      rewrite M1, M2, M4. splits; try lia; try reflexivity.
      eexists. exact M3.
Qed.

Lemma delays_stable (cls : Classifier) (m : nat) :
  forall i, delays (querySQL_params cls) i m = repeat Second m.
Proof.
  induction m as [|m IH]; intros i; [reflexivity|].
  rewrite delays_S, IH. simpl. now rewrite repeat_cons.
Qed.

Lemma delays_linear (cls : Classifier) (m : nat) :
  delays (executeSQL_params cls) 0 m
  = rev (map (fun j => Z.of_nat (S j) * (2 * Second)) (seq 0 m)).
Proof.
  unfold delays. f_equal. apply map_ext. intros j.
  unfold backoff_duration, executeSQL_params. cbn [BackoffStrategy FirstRetryDuration].
  replace (0 + Z.of_nat j + 1) with (Z.of_nat (S j)) by lia. reflexivity.
Qed.

(** The trace of any run of querySQL on a connection with a handle and a
    quiet recovery. *)
Lemma querySQL_run_shape (cls : Classifier) (c : DBConn) (h : BaseConn) (query : string)
      (args : list Arg) (w : World) :
  baseConn c = Some h ->
  quiet_reset (resetBaseConnFn c) ->
  exists k m,
    (m <= k)%nat /\ (1 <= k <= 10)%nat /\
    db_calls (trace (snd (querySQL cls (Some c) query args w)))
    = (db_calls (trace w) + k)%nat /\
    incs (trace (snd (querySQL cls (Some c) query args w))) = incs (trace w) /\
    waits (trace (snd (querySQL cls (Some c) query args w)))
    = repeat Second m ++ waits (trace w) /\
    match fst (fst (querySQL cls (Some c) query args w)) with
    | Ok (_, None) =>
        exists cost,
          observes (trace (snd (querySQL cls (Some c) query args w)))
          = (name c, sourceID c, cost) :: observes (trace w)
    | _ => observes (trace (snd (querySQL cls (Some c) query args w))) = observes (trace w)
    end.
Proof.
  intros Hh Hq.
  destruct (querySQL_loop_shape cls query args 10 (mkOp c w) 0 None None Hq)
    as (k & m & Hmk & Hkn & Hk0 & Hc & Hi & Hw & Ho); [discriminate|].
  unfold querySQL, ApplyRetryStrategy. rewrite Hh.
  change (Z.to_nat (RetryCount (querySQL_params cls))) with 10%nat.
  destruct (Apply_from 10 0 None None (querySQL_params cls)
                       (querySQL_operateFn query args) (mkOp c w))
    as [[[[r i] [e|]]|why] st'];
    simpl in Hc, Hi, Hw, Ho |- *; rewrite delays_stable in Hw;
    exists k, m; splits; try assumption; lia.
Qed.

(** The trace of any run of executeSQL on a non-empty batch, on a
    connection with a handle and a quiet recovery. *)
Lemma executeSQL_run_shape (cls : Classifier) (c : DBConn) (h : BaseConn) (q0 : string)
      (queries : list string) (eargs : list (list Arg)) (w : World) :
  baseConn c = Some h ->
  quiet_reset (resetBaseConnFn c) ->
  exists k f m,
    (m <= f)%nat /\ (1 <= k <= 10)%nat /\
    k = (f + not_failed (fst (fst (executeSQL cls (Some c) (q0 :: queries) eargs w))))%nat /\
    db_calls (trace (snd (executeSQL cls (Some c) (q0 :: queries) eargs w)))
    = (db_calls (trace w) + k)%nat /\
    incs (trace (snd (executeSQL cls (Some c) (q0 :: queries) eargs w)))
    = repeat (name c, sourceID c) f ++ incs (trace w) /\
    waits (trace (snd (executeSQL cls (Some c) (q0 :: queries) eargs w)))
    = rev (map (fun j => Z.of_nat (S j) * (2 * Second)) (seq 0 m)) ++ waits (trace w).
Proof.
  intros Hh Hq.
  destruct (executeSQL_loop_shape cls (q0 :: queries) eargs 10 (mkOp c w) 0 None None Hq)
    as (k & f & m & Hmf & Hkn & Hk0 & Hk & Hc & Hi & Hw); [discriminate|].
  unfold executeSQL, ApplyRetryStrategy. rewrite Hh.
  change (Z.to_nat (RetryCount (executeSQL_params cls))) with 10%nat.
  destruct (Apply_from 10 0 None None (executeSQL_params cls)
                       (executeSQL_operateFn (q0 :: queries) eargs) (mkOp c w))
    as [[[[r i] [e|]]|why] st'];
    simpl in Hk, Hc, Hi, Hw |- *; rewrite delays_linear in Hw;
    exists k, f, m; splits; try assumption; lia.
Qed.

(** * Retry schedules *)

(** C5. querySQL retries with RetryCount = 10, a first delay of one second
    and the same delay after every attempt; executeSQL with RetryCount =
    10, a first delay of two seconds and a delay of (i + 1) times two
    seconds after the attempt of index i, which does not decrease with i.
    In the trace of any run (on a connection with a handle and a quiet
    recovery) the waits of querySQL are at most ten waits of one second,
    and those of executeSQL are, in order of time, 2s, 4s, ... (at most
    ten). *)
Theorem retry_schedules :
  forall cls : Classifier,
    (RetryCount (querySQL_params cls) = 10 /\
     FirstRetryDuration (querySQL_params cls) = Second /\
     BackoffStrategy (querySQL_params cls) = Stable /\
     forall i : Z, backoff_duration (querySQL_params cls) i = Second) /\
    (RetryCount (executeSQL_params cls) = 10 /\
     FirstRetryDuration (executeSQL_params cls) = 2 * Second /\
     BackoffStrategy (executeSQL_params cls) = LinearIncrease /\
     (forall i : Z,
         backoff_duration (executeSQL_params cls) i = (i + 1) * (2 * Second)) /\
     forall i k : nat,
       backoff_duration (executeSQL_params cls) (Z.of_nat i)
       <= backoff_duration (executeSQL_params cls) (Z.of_nat (i + k))) /\
    (forall (c : DBConn) (h : BaseConn) (query : string) (args : list Arg) (w : World),
        baseConn c = Some h ->
        quiet_reset (resetBaseConnFn c) ->
        exists m,
          (m <= 10)%nat /\
          waits (trace (snd (querySQL cls (Some c) query args w)))
          = repeat Second m ++ waits (trace w)) /\
    (forall (c : DBConn) (h : BaseConn) (q0 : string) (queries : list string)
            (eargs : list (list Arg)) (w : World),
        baseConn c = Some h ->
        quiet_reset (resetBaseConnFn c) ->
        exists m,
          (m <= 10)%nat /\
          waits (trace (snd (executeSQL cls (Some c) (q0 :: queries) eargs w)))
          = rev (map (fun j => Z.of_nat (S j) * (2 * Second)) (seq 0 m))
                ++ waits (trace w)).
Proof.
  intros cls. split; [|split; [|split]].
  - repeat split.
  - splits; try reflexivity.
    intros i k. unfold backoff_duration, executeSQL_params, Second.
    cbn [BackoffStrategy FirstRetryDuration]. lia.
  - intros c h query args w Hh Hq.
    destruct (querySQL_run_shape cls c h query args w Hh Hq)
      as (k & m & Hmk & Hk & _ & _ & Hw & _).
    exists m. split; [lia|exact Hw].
  - intros c h q0 queries eargs w Hh Hq.
    destruct (executeSQL_run_shape cls c h q0 queries eargs w Hh Hq)
      as (k & f & m & Hmf & Hk & Hkf & _ & _ & Hw).
    exists m. split; [|exact Hw].
    unfold not_failed in Hkf.
    destruct (fst (fst (executeSQL cls (Some c) (q0 :: queries) eargs w)))
      as [[e|]|why]; lia.
Qed.

Lemma retry_schedules_witness :
  (exists m,
      (m <= 10)%nat /\
      waits (trace (snd (querySQL sample_classifier (Some sample_conn) "SELECT 1" []
                                  deadlock_world)))
      = repeat Second m ++ waits (trace deadlock_world)) /\
  (exists m,
      (m <= 10)%nat /\
      waits (trace (snd (executeSQL sample_classifier (Some sample_conn)
                                    ["DELETE FROM t"%string] [] deadlock_world)))
      = rev (map (fun j => Z.of_nat (S j) * (2 * Second)) (seq 0 m))
            ++ waits (trace deadlock_world)).
Proof.
  destruct (retry_schedules sample_classifier) as (_ & _ & Hq & He).
  split.
  - apply (Hq sample_conn {| conn_id := 0 |} "SELECT 1"%string [] deadlock_world).
    + reflexivity.
    + apply pool_resetBaseConnFn_quiet.
  - apply (He sample_conn {| conn_id := 0 |} "DELETE FROM t"%string [] [] deadlock_world).
    + reflexivity.
    + apply pool_resetBaseConnFn_quiet.
Defined.

(** * The execution-error counter *)

(** C8. On a connection whose recovery is quiet, each call of the decision
    closure of executeSQL records the increment of the counter labelled
    (name, sourceID) first, before the connection test, the recovery and
    the log records, and records no other increment, whatever it answers;
    an attempt itself records none.  Over a run with [k] ExecuteSQL calls,
    all attempts but the last have failed, and the last has failed exactly
    when the run returns an error: the trace gains exactly one increment
    per failed attempt, all with the labels of the connection. *)
Theorem execution_error_counter_once_per_failed_attempt :
  forall cls : Classifier,
    (forall (i : Z) (e : error) (st : OpState),
        quiet_reset (resetBaseConnFn (self st)) ->
        exists b st' evs,
          executeSQL_IsRetryableFn cls i e st = (Ok b, st') /\
          trace (world st')
          = evs ++ EvInc (name (self st)) (sourceID (self st)) :: trace (world st) /\
          incs evs = []) /\
    (forall (queries : list string) (args : list (list Arg)) (st : OpState),
        incs (trace (world (snd (executeSQL_operateFn queries args st))))
        = incs (trace (world st))) /\
    (forall (c : DBConn) (h : BaseConn) (q0 : string) (queries : list string)
            (eargs : list (list Arg)) (w : World),
        baseConn c = Some h ->
        quiet_reset (resetBaseConnFn c) ->
        exists k f,
          (1 <= k <= 10)%nat /\
          db_calls (trace (snd (executeSQL cls (Some c) (q0 :: queries) eargs w)))
          = (db_calls (trace w) + k)%nat /\
          k = (f + not_failed
                     (fst (fst (executeSQL cls (Some c) (q0 :: queries) eargs w))))%nat /\
          incs (trace (snd (executeSQL cls (Some c) (q0 :: queries) eargs w)))
          = repeat (name c, sourceID c) f ++ incs (trace w)).
Proof.
  intros cls. split; [|split].
  - intros i e st Hq.
    destruct (executeSQL_IsRetryableFn_inc_first cls i e st Hq)
      as (b & st' & evs & Hdec & _ & _ & _ & Htr & Hqe).
    exists b, st', evs. splits; try assumption. apply Hqe.
  - intros queries args st.
    destruct (executeSQL_operateFn_spec queries args st)
      as (_ & _ & (logs & Htr & Hql) & _).
    rewrite Htr.
    destruct (quiet_measures logs
                (EvExecuteSQL (baseConn (self st)) (name (self st)) queries args
                              :: trace (world st)) Hql) as (_ & M2 & _).
    exact M2.
  - intros c h q0 queries eargs w Hh Hq.
    destruct (executeSQL_run_shape cls c h q0 queries eargs w Hh Hq)
      as (k & f & m & Hmf & Hk & Hkf & Hc & Hi & _).
    exists k, f. splits; try assumption; lia.
Qed.

Lemma execution_error_counter_once_per_failed_attempt_witness :
  (exists b st' evs,
      executeSQL_IsRetryableFn sample_classifier 0 err_invalid_conn
                               (mkOp sample_conn refused_world) = (Ok b, st') /\
      trace (world st') = evs ++ EvInc "worker" "mysql-01" :: trace refused_world /\
      incs evs = []) /\
  (exists k f,
      (1 <= k <= 10)%nat /\
      db_calls (trace (snd (executeSQL sample_classifier (Some sample_conn)
                                       ["DELETE FROM t"%string] [] deadlock_world)))
      = (db_calls (trace deadlock_world) + k)%nat /\
      k = (f + not_failed
                 (fst (fst (executeSQL sample_classifier (Some sample_conn)
                                       ["DELETE FROM t"%string] [] deadlock_world))))%nat /\
      incs (trace (snd (executeSQL sample_classifier (Some sample_conn)
                                   ["DELETE FROM t"%string] [] deadlock_world)))
      = repeat (name sample_conn, sourceID sample_conn) f ++ incs (trace deadlock_world)).
Proof.
  destruct (execution_error_counter_once_per_failed_attempt sample_classifier)
    as (Hd & _ & Hr).
  split.
  - apply (Hd 0 err_invalid_conn (mkOp sample_conn refused_world)).
    apply pool_resetBaseConnFn_quiet.
  - apply (Hr sample_conn {| conn_id := 0 |} "DELETE FROM t"%string [] [] deadlock_world).
    + reflexivity.
    + apply pool_resetBaseConnFn_quiet.
Defined.

(** * Deferred row errors in querySQL *)

Lemma querySQL_IsRetryableFn_fatal (cls : Classifier) (i : Z) (e : error) (st : OpState) :
  classify cls e = FatalStatementError ->
  querySQL_IsRetryableFn cls i e st = (Ok false, st).
Proof.
  intros H. apply classify_fatal in H as [Hc Hr].
  unfold querySQL_IsRetryableFn. rewrite Hc, Hr. reflexivity.
Qed.

(** C10. An attempt of querySQL whose QuerySQL call returns rows without
    error, the rows carrying a deferred error [e], returns the rows with
    [e] and records no observation; whatever the answer, an attempt
    records one observation exactly when it ends without error.  The loop
    hands [e] to the decision like any error: when [e] is retryable and
    the next attempt is clean, querySQL succeeds after two calls with the
    single observation of the second attempt; when [e] is fatal, querySQL
    returns [e] after one call and no observation. *)
Theorem deferred_rows_error_is_a_failed_attempt :
  forall (cls : Classifier) (query : string) (args : list Arg),
    (forall (st : OpState) (rows : Rows) (cost : Z) (e : error),
        env_query (world st) 0%nat = (inl rows, cost) ->
        rows_err rows = Some e ->
        querySQL_operateFn query args st
        = (Ok (Some rows, Some e),
           mkOp (self st) (snd (QuerySQL (baseConn (self st)) query args (world st)))) /\
        trace (world (snd (querySQL_operateFn query args st)))
        = EvQuerySQL (baseConn (self st)) query args :: trace (world st)) /\
    (forall st : OpState,
        observes (trace (world (snd (querySQL_operateFn query args st))))
        = match query_attempt_err (env_query (world st) 0%nat) with
          | None => (name (self st), sourceID (self st), snd (env_query (world st) 0%nat))
                      :: observes (trace (world st))
          | Some _ => observes (trace (world st))
          end) /\
    (forall (c : DBConn) (h : BaseConn) (w : World) (rows rows2 : Rows) (cost cost2 : Z)
            (e : error),
        baseConn c = Some h ->
        env_query w 0%nat = (inl rows, cost) ->
        rows_err rows = Some e ->
        classify cls e = RetryableStatementError ->
        env_done w 0%nat = false ->
        env_query w 1%nat = (inl rows2, cost2) ->
        rows_err rows2 = None ->
        fst (querySQL cls (Some c) query args w) = (Ok (Some rows2, None), Some c) /\
        db_calls (trace (snd (querySQL cls (Some c) query args w)))
        = (db_calls (trace w) + 2)%nat /\
        observes (trace (snd (querySQL cls (Some c) query args w)))
        = (name c, sourceID c, cost2) :: observes (trace w)) /\
    (forall (c : DBConn) (h : BaseConn) (w : World) (rows : Rows) (cost : Z) (e : error),
        baseConn c = Some h ->
        env_query w 0%nat = (inl rows, cost) ->
        rows_err rows = Some e ->
        classify cls e = FatalStatementError ->
        fst (querySQL cls (Some c) query args w) = (Ok (None, Some e), Some c) /\
        db_calls (trace (snd (querySQL cls (Some c) query args w)))
        = (db_calls (trace w) + 1)%nat /\
        observes (trace (snd (querySQL cls (Some c) query args w)))
        = observes (trace w)).
Proof.
  intros cls query args. split; [|split; [|split]].
  - intros st rows cost e Hq He.
    rewrite querySQL_operateFn_eq. cbv zeta. rewrite Hq, He. split; reflexivity.
  - intros st.
    destruct (querySQL_operateFn_spec query args st) as (_ & _ & _ & _ & Ho).
    destruct (fst (querySQL_operateFn query args st)) as [[r [e|]]|why];
      [| |contradiction]; destruct Ho as [Ha Hobs]; rewrite Ha; exact Hobs.
  - intros c h w rows rows2 cost cost2 e Hh H0 He Hc Hd H1 He2.
    unfold querySQL, ApplyRetryStrategy. rewrite Hh.
    change (Z.to_nat (RetryCount (querySQL_params cls))) with 10%nat.
    rewrite Apply_from_S, querySQL_operateFn_eq. cbv zeta. simpl world. simpl self.
    rewrite H0, He.
    change (IsRetryableFn (querySQL_params cls)) with (querySQL_IsRetryableFn cls).
    rewrite (querySQL_IsRetryableFn_retryable cls 0 e _ Hc).
    simpl. rewrite Hd.
    rewrite Apply_from_S, querySQL_operateFn_eq. cbv zeta. simpl world. simpl self.
    unfold next at 1. simpl env_query. unfold next. rewrite H1, He2.
    destruct (Second <? cost2); simpl; rewrite Nat.add_comm; repeat split.
  - intros c h w rows cost e Hh H0 He Hc.
    unfold querySQL, ApplyRetryStrategy. rewrite Hh.
    change (Z.to_nat (RetryCount (querySQL_params cls))) with 10%nat.
    rewrite Apply_from_S, querySQL_operateFn_eq. cbv zeta. simpl world. simpl self.
    rewrite H0, He.
    change (IsRetryableFn (querySQL_params cls)) with (querySQL_IsRetryableFn cls).
    rewrite (querySQL_IsRetryableFn_fatal cls 0 e _ Hc).
    simpl. rewrite Nat.add_comm. repeat split.
Qed.

Lemma deferred_rows_error_is_a_failed_attempt_witness :
  (querySQL_operateFn "SELECT 1" [] (mkOp sample_conn deferred_world)
   = (Ok (Some {| rows_id := 0; rows_err := Some (MySQLError 1213 "Deadlock found") |},
          Some (MySQLError 1213 "Deadlock found")),
      mkOp sample_conn
           (snd (QuerySQL (baseConn sample_conn) "SELECT 1" [] deferred_world))) /\
   trace (world (snd (querySQL_operateFn "SELECT 1" [] (mkOp sample_conn deferred_world))))
   = EvQuerySQL (baseConn sample_conn) "SELECT 1" [] :: trace deferred_world) /\
  (fst (querySQL sample_classifier (Some sample_conn) "SELECT 1" [] deferred_world)
   = (Ok (Some {| rows_id := 1; rows_err := None |}, None), Some sample_conn) /\
   db_calls (trace (snd (querySQL sample_classifier (Some sample_conn) "SELECT 1" []
                                  deferred_world)))
   = (db_calls (trace deferred_world) + 2)%nat /\
   observes (trace (snd (querySQL sample_classifier (Some sample_conn) "SELECT 1" []
                                  deferred_world)))
   = (name sample_conn, sourceID sample_conn, 7) :: observes (trace deferred_world)) /\
  (fst (querySQL no_retry (Some sample_conn) "SELECT 1" [] deferred_world)
   = (Ok (None, Some (MySQLError 1213 "Deadlock found")), Some sample_conn) /\
   db_calls (trace (snd (querySQL no_retry (Some sample_conn) "SELECT 1" []
                                  deferred_world)))
   = (db_calls (trace deferred_world) + 1)%nat /\
   observes (trace (snd (querySQL no_retry (Some sample_conn) "SELECT 1" []
                                  deferred_world)))
   = observes (trace deferred_world)).
Proof.
  destruct (deferred_rows_error_is_a_failed_attempt sample_classifier "SELECT 1" [])
    as (Ha & _ & Hr & _).
  destruct (deferred_rows_error_is_a_failed_attempt no_retry "SELECT 1" [])
    as (_ & _ & _ & Hf).
  split; [|split].
  - apply (Ha (mkOp sample_conn deferred_world) _ 5); reflexivity.
  - apply (Hr sample_conn {| conn_id := 0 |} deferred_world
              {| rows_id := 0; rows_err := Some (MySQLError 1213 "Deadlock found") |}
              {| rows_id := 1; rows_err := None |} 5 7
              (MySQLError 1213 "Deadlock found")); reflexivity.
  - apply (Hf sample_conn {| conn_id := 0 |} deferred_world
              {| rows_id := 0; rows_err := Some (MySQLError 1213 "Deadlock found") |} 5
              (MySQLError 1213 "Deadlock found")); reflexivity.
Defined.

(** * Fault injection *)

Lemma digit_of_range (c : ascii) (d : Z) : digit_of c = Some d -> 0 <= d <= 9.
Proof.
  unfold digit_of.
  destruct ((48 <=? Z.of_nat (nat_of_ascii c)) && (Z.of_nat (nat_of_ascii c) <=? 57))
           eqn:E; [|discriminate].
  apply andb_true_iff in E as [E1 E2].
  apply Z.leb_le in E1. apply Z.leb_le in E2.
  intros H. inversion H. lia.
Qed.

Lemma parse_digits_nonneg (s : string) :
  forall acc n, 0 <= acc -> parse_digits s acc = Some n -> 0 <= n.
Proof.
  induction s as [|c s IH]; intros acc n Hacc H; simpl in H.
  - inversion H. lia.
  - destruct (digit_of c) as [d|] eqn:Ed; [|discriminate].
    apply digit_of_range in Ed. apply (IH (10 * acc + d) n); [lia|exact H].
Qed.

(** A parsed code is a 16-bit value: the uint16 conversion keeps it. *)
Lemma ParseUint_10_16_range (s : string) (code : Z) :
  ParseUint_10_16 s = Some code -> 0 <= code <= 65535.
Proof.
  unfold ParseUint_10_16. destruct s as [|c s]; [discriminate|].
  destruct (parse_digits (String c s) 0) as [n|] eqn:E; [|discriminate].
  destruct (n <=? 65535) eqn:L; [|discriminate].
  intros H. inversion H; subst. apply Z.leb_le in L.
  split; [|exact L]. apply (parse_digits_nonneg (String c s) 0 code); [lia|exact E].
Qed.

Lemma executeSQL_IsRetryableFn_fatal (cls : Classifier) (i : Z) (e : error)
      (st : OpState) :
  classify cls e = FatalStatementError ->
  executeSQL_IsRetryableFn cls i e st
  = (Ok false,
     mkOp (self st) (push (EvInc (name (self st)) (sourceID (self st))) (world st))).
Proof.
  intros H. apply classify_fatal in H as [Hc Hr].
  unfold executeSQL_IsRetryableFn. rewrite Hc, Hr. reflexivity.
Qed.

Lemma executeSQL_operateFn_injected (s : string) (code : Z) (q : string)
      (args : list (list Arg)) (st : OpState) :
  ParseUint_10_16 s = Some code ->
  Contains q "CREATE TABLE" = true ->
  env_failpoint (world st) 0%nat = Some (ValString s) ->
  fst (executeSQL_operateFn [q] args st) = Ok (None, Some (MySQLError code "")).
Proof.
  intros Hp Hc Hf.
  assert (Hmod : code mod 65536 = code).
  { apply Z.mod_small. apply ParseUint_10_16_range in Hp. lia. }
  destruct (executeSQL_operateFn_spec [q] args st) as (Hres & _).
  cbv zeta in Hres. rewrite Hres. unfold execute_attempt_err.
  now rewrite Hf, Hp, Hc, Hmod.
Qed.

(** When the injected error is fatal for the classifier, executeSQL
    returns it after a single ExecuteSQL call. *)
Lemma executeSQL_injected_fatal (s : string) (code : Z) (cls : Classifier) (c : DBConn)
      (h : BaseConn) (q : string) (eargs : list (list Arg)) (w : World) :
  ParseUint_10_16 s = Some code ->
  baseConn c = Some h ->
  Contains q "CREATE TABLE" = true ->
  env_failpoint w 0%nat = Some (ValString s) ->
  classify cls (MySQLError code "") = FatalStatementError ->
  fst (executeSQL cls (Some c) [q] eargs w) = (Ok (Some (MySQLError code "")), Some c) /\
  db_calls (trace (snd (executeSQL cls (Some c) [q] eargs w)))
  = (db_calls (trace w) + 1)%nat.
Proof.
  intros Hp Hh Hc Hf Hfatal.
  pose proof (executeSQL_operateFn_injected s code q eargs (mkOp c w) Hp Hc Hf) as Hres.
  destruct (executeSQL_operateFn_spec [q] eargs (mkOp c w))
    as (_ & Hself & (logs & Htr & Hql) & _).
  unfold executeSQL, ApplyRetryStrategy. rewrite Hh.
  change (Z.to_nat (RetryCount (executeSQL_params cls))) with 10%nat.
  rewrite Apply_from_S.
  destruct (executeSQL_operateFn [q] eargs (mkOp c w)) as [ro st1].
  simpl in Hres, Hself, Htr. subst ro.
  change (IsRetryableFn (executeSQL_params cls)) with (executeSQL_IsRetryableFn cls).
  rewrite (executeSQL_IsRetryableFn_fatal cls 0 _ st1 Hfatal). simpl.
  rewrite Hself. split; [reflexivity|].
  rewrite Htr.
  destruct (quiet_measures logs (EvExecuteSQL (Some h) (name c) [q] eargs :: trace w)
                           Hql) as (M1 & _).
  rewrite Hh in *. rewrite M1. simpl. lia.
Qed.

(** C9. With the injection point armed with the decimal string of a
    16-bit code: an attempt of executeSQL on a batch of exactly one
    statement that contains "CREATE TABLE" ends with the MySQL error of
    that code and an empty message, whatever ExecuteSQL returned; on a
    batch of any other shape the attempt returns what ExecuteSQL returned
    and leaves the trace it would leave with the point not armed. *)
Theorem armed_failpoint_fails_single_create_table :
  forall (s : string) (code : Z),
    ParseUint_10_16 s = Some code ->
    (forall (q : string) (args : list (list Arg)) (st : OpState),
        Contains q "CREATE TABLE" = true ->
        env_failpoint (world st) 0%nat = Some (ValString s) ->
        fst (executeSQL_operateFn [q] args st) = Ok (None, Some (MySQLError code ""))) /\
    (forall (queries : list string) (args : list (list Arg)) (st : OpState),
        (forall q, queries = [q] -> Contains q "CREATE TABLE" = false) ->
        env_failpoint (world st) 0%nat = Some (ValString s) ->
        fst (executeSQL_operateFn queries args st)
        = Ok (None, fst (env_exec (world st) 0%nat)) /\
        fst (executeSQL_operateFn queries args st)
        = fst (executeSQL_operateFn queries args (mkOp (self st) (disarmed (world st)))) /\
        trace (world (snd (executeSQL_operateFn queries args st)))
        = trace (world (snd (executeSQL_operateFn
                               queries args (mkOp (self st) (disarmed (world st))))))).
Proof.
  intros s code Hp. split.
  - intros q args st Hc Hf.
    apply (executeSQL_operateFn_injected s code q args st Hp Hc Hf).
  - intros queries args st Hshape Hf.
    unfold executeSQL_operateFn, ExecuteSQL, failpoint_eval, disarmed. simpl.
    rewrite Hf. destruct (env_exec (world st) 0%nat) as [err0 cost]. simpl.
    unfold bind, LoadExecCreateTableFailed. rewrite Hp.
    destruct queries as [|q [|q' qs]]; simpl;
      try rewrite (Hshape q eq_refl); simpl;
      destruct err0 as [e|]; simpl; try destruct (Second <? cost); simpl;
      repeat split.
Qed.

Lemma armed_failpoint_fails_single_create_table_witness :
  ParseUint_10_16 "1050" = Some 1050 /\
  fst (executeSQL_operateFn ["CREATE TABLE `t` (id INT)"%string] []
                            (mkOp sample_conn armed_world))
  = Ok (None, Some (MySQLError 1050 "")) /\
  (fst (executeSQL_operateFn ["USE `db`"%string; "CREATE TABLE `t` (id INT)"%string] []
                             (mkOp sample_conn armed_world))
   = Ok (None, fst (env_exec armed_world 0%nat)) /\
   fst (executeSQL_operateFn ["USE `db`"%string; "CREATE TABLE `t` (id INT)"%string] []
                             (mkOp sample_conn armed_world))
   = fst (executeSQL_operateFn ["USE `db`"%string; "CREATE TABLE `t` (id INT)"%string] []
                               (mkOp sample_conn (disarmed armed_world))) /\
   trace (world (snd (executeSQL_operateFn
                        ["USE `db`"%string; "CREATE TABLE `t` (id INT)"%string] []
                        (mkOp sample_conn armed_world))))
   = trace (world (snd (executeSQL_operateFn
                          ["USE `db`"%string; "CREATE TABLE `t` (id INT)"%string] []
                          (mkOp sample_conn (disarmed armed_world)))))).
Proof.
  destruct (armed_failpoint_fails_single_create_table "1050" 1050) as (H1 & H2).
  - reflexivity.
  - split; [reflexivity|]. split.
    + apply (H1 _ [] (mkOp sample_conn armed_world)); reflexivity.
    + apply (H2 _ [] (mkOp sample_conn armed_world)); [|reflexivity].
      intros q Hq. discriminate Hq.
Defined.

(** The injected 1050 (table exists) is fatal for [sample_classifier]:
    one call, and the error goes to the caller. *)
Example executeSQL_injected_1050 :
  fst (executeSQL sample_classifier (Some sample_conn)
                  ["CREATE TABLE `t` (id INT)"%string] [] armed_world)
  = (Ok (Some (MySQLError 1050 "")), Some sample_conn) /\
  db_calls (trace (snd (executeSQL sample_classifier (Some sample_conn)
                                   ["CREATE TABLE `t` (id INT)"%string] [] armed_world)))
  = (db_calls (trace armed_world) + 1)%nat.
Proof.
  apply (executeSQL_injected_fatal "1050" 1050 sample_classifier sample_conn
                                   {| conn_id := 0 |}); reflexivity.
Qed.

(** * Scope *)

(** X1. Scope reports a scope other than ScopeNotSet only on a connection that
    passes the validity test of querySQL and executeSQL, and it follows
    the handle through resetConn: after a successful reset it is the scope
    of the new handle (ScopeNotSet for a nil one), after a failed reset it
    is what it was. *)
Theorem Scope_follows_handle :
  forall (scope_of : BaseConn -> ErrScope) (conn : option DBConn) (st : OpState),
    (Scope scope_of conn <> ScopeNotSet -> uninitialized conn = false) /\
    Scope scope_of (Some (self (snd (resetConn st))))
    = match resetBaseConnFn (self st) (baseConn (self st)) (world st) with
      | ((Some h, None), _) => scope_of h
      | ((None, None), _) => ScopeNotSet
      | ((_, Some _), _) => Scope scope_of (Some (self st))
      end.
Proof.
  intros scope_of conn st. split.
  - destruct conn as [c|]; simpl; [|congruence].
    destruct (baseConn c); [reflexivity|congruence].
  - unfold resetConn.
    destruct (resetBaseConnFn (self st) (baseConn (self st)) (world st))
      as [[[h|] [e|]] w']; reflexivity.
Qed.

Lemma Scope_follows_handle_witness :
  Scope scope_downstream (Some sample_conn) <> ScopeNotSet /\
  uninitialized (Some sample_conn) = false.
Proof.
  split; [discriminate|].
  apply (Scope_follows_handle scope_downstream (Some sample_conn)
                              (mkOp sample_conn healthy_world)).
  discriminate.
Defined.

(** * The recovery closure of the pool *)

(** X2. The closure force-closes the handle it is given, then asks the base
    handle for a new one, in this order and once each.  A failure to close
    is logged and never returned: the result is a new handle exactly when
    GetBaseConn succeeded, and its error otherwise. *)
Theorem pool_reset_close_is_best_effort :
  forall (db : BaseDB) (h : option BaseConn) (w : World),
    fst (pool_resetBaseConnFn db h w)
    = match env_getconn w 0%nat with
      | inl c => (Some c, None)
      | inr e => (None, Some e)
      end /\
    trace (snd (pool_resetBaseConnFn db h w))
    = EvGetBaseConn db
        :: match env_forceclose w 0%nat with
           | Some _ => [EvLog LogWarn "failed to close baseConn in reset" None None]
           | None => []
           end
        ++ EvForceCloseConn db h :: trace w /\
    env_getconn (snd (pool_resetBaseConnFn db h w)) = next (env_getconn w) /\
    env_forceclose (snd (pool_resetBaseConnFn db h w)) = next (env_forceclose w).
Proof.
  intros db h w. unfold pool_resetBaseConnFn, ForceCloseConn, GetBaseConn. simpl.
  destruct (env_forceclose w 0%nat); simpl; destruct (env_getconn w 0%nat); simpl;
    repeat split.
Qed.

(** X3. resetConn on a connection of the pool, when no new handle can be
    obtained: the error of GetBaseConn is returned and the connection keeps
    its handle, which has just been force-closed. *)
Theorem resetConn_failed_keeps_closed_handle :
  forall (db : BaseDB) (c : DBConn) (w : World) (e : error),
    resetBaseConnFn c = pool_resetBaseConnFn db ->
    env_getconn w 0%nat = inr e ->
    fst (resetConn (mkOp c w)) = Ok (Some e) /\
    self (snd (resetConn (mkOp c w))) = c /\
    force_closed (trace (world (snd (resetConn (mkOp c w)))))
    = baseConn c :: force_closed (trace w).
Proof.
  intros db c w e Hcap He. unfold resetConn. simpl. rewrite Hcap.
  unfold pool_resetBaseConnFn, ForceCloseConn, GetBaseConn. simpl.
  destruct (env_forceclose w 0%nat); simpl; rewrite He; simpl; repeat split.
Qed.

Lemma resetConn_failed_keeps_closed_handle_witness :
  fst (resetConn (mkOp sample_conn refused_world)) = Ok (Some err_refused) /\
  self (snd (resetConn (mkOp sample_conn refused_world))) = sample_conn /\
  force_closed (trace (world (snd (resetConn (mkOp sample_conn refused_world)))))
  = baseConn sample_conn :: force_closed (trace refused_world).
Proof.
  apply (resetConn_failed_keeps_closed_handle {| db_id := 0 |} sample_conn refused_world
                                              err_refused); reflexivity.
Defined.

Lemma resetConn_pool_succeeds (db : BaseDB) (c : DBConn) (w : World) (h : BaseConn) :
  resetBaseConnFn c = pool_resetBaseConnFn db ->
  env_getconn w 0%nat = inl h ->
  fst (resetConn (mkOp c w)) = Ok None /\
  self (snd (resetConn (mkOp c w)))
  = mkDBConn (name c) (sourceID c) (Some h) (pool_resetBaseConnFn db) /\
  force_closed (trace (world (snd (resetConn (mkOp c w)))))
  = baseConn c :: force_closed (trace w) /\
  queried (trace (world (snd (resetConn (mkOp c w))))) = queried (trace w) /\
  env_getconn (world (snd (resetConn (mkOp c w)))) = next (env_getconn w) /\
  env_query (world (snd (resetConn (mkOp c w)))) = env_query w /\
  env_exec (world (snd (resetConn (mkOp c w)))) = env_exec w /\
  env_done (world (snd (resetConn (mkOp c w)))) = env_done w /\
  env_failpoint (world (snd (resetConn (mkOp c w)))) = env_failpoint w.
Proof.
  intros Hcap He. unfold resetConn. simpl. rewrite Hcap.
  unfold pool_resetBaseConnFn, ForceCloseConn, GetBaseConn. simpl.
  destruct (env_forceclose w 0%nat); simpl; rewrite He; simpl; repeat split.
Qed.

Lemma held_after_reset (c c' : DBConn) (w w' : World) (h : BaseConn) :
  env_getconn w 0%nat = inl h ->
  baseConn c' = Some h ->
  env_getconn w' = next (env_getconn w) ->
  forall j, held c' w' j = held c w (S j).
Proof.
  intros He Hb Hn j. destruct j as [|j]; simpl.
  - now rewrite Hb, He.
  - now rewrite Hn.
Qed.

Lemma rev_map_seq_S {A : Type} (f : nat -> A) (n : nat) (l : list A) :
  rev (map (fun j => f (S j)) (seq 0 n)) ++ f 0%nat :: l
  = rev (map f (seq 0 (S n))) ++ l.
Proof.
  simpl. rewrite <- seq_shift, map_map, <- app_assoc. reflexivity.
Qed.

(** X4. Successive resets of a connection of the pool leak no handle: when
    GetBaseConn succeeds [n] times, after [n] calls of resetConn the
    connection holds the last handle obtained, and every handle it held
    before, its first one included, has been force-closed, one by one in
    the order in which they were held. *)
Theorem resets_close_every_replaced_handle :
  forall (n : nat) (db : BaseDB) (c : DBConn) (w : World),
    resetBaseConnFn c = pool_resetBaseConnFn db ->
    (forall j, (j < n)%nat -> exists h, env_getconn w j = inl h) ->
    baseConn (self (resetConn_times n (mkOp c w))) = held c w n /\
    force_closed (trace (world (resetConn_times n (mkOp c w))))
    = rev (map (held c w) (seq 0 n)) ++ force_closed (trace w).
Proof.
  induction n as [|n IH]; intros db c w Hcap Hget; [split; reflexivity|].
  destruct (Hget 0%nat) as [h Hh]; [lia|].
  destruct (resetConn_pool_succeeds db c w h Hcap Hh)
    as (_ & Hself & Hfc & _ & Hgc & _).
  simpl resetConn_times.
  destruct (resetConn (mkOp c w)) as [r [c1 w1]]. cbn [snd self world] in *.
  destruct (IH db c1 w1) as [Hb Hf].
  - now rewrite Hself.
  - intros j Hj. rewrite Hgc. apply Hget. lia.
  - assert (Hheld : forall j, held c1 w1 j = held c w (S j)).
    { apply (held_after_reset c c1 w w1 h Hh); [now rewrite Hself|exact Hgc]. }
    split.
    + rewrite Hb. apply Hheld.
    + rewrite Hf, Hfc.
      rewrite (map_ext _ _ Hheld).
      apply (rev_map_seq_S (held c w) n).
Qed.

Lemma resets_close_every_replaced_handle_witness :
  baseConn (self (resetConn_times 3 (mkOp sample_conn healthy_world)))
  = held sample_conn healthy_world 3 /\
  force_closed (trace (world (resetConn_times 3 (mkOp sample_conn healthy_world))))
  = rev (map (held sample_conn healthy_world) (seq 0 3))
        ++ force_closed (trace healthy_world).
Proof.
  apply (resets_close_every_replaced_handle 3 {| db_id := 0 |} sample_conn healthy_world).
  - reflexivity.
  - intros j _. eexists. reflexivity.
Defined.

(** * createConns at the edges, and what it hands out *)

(** X5. With a worker count of zero createConns returns the base handle and no
    connection; with a negative one the slice allocation panics.  Either
    way the base handle has been opened and nothing else is called: no
    connection is requested and the base handle is not closed. *)
Theorem createConns_without_workers :
  forall (cfg : SubTaskConfig) (nm sid : string) (workerCount : Z) (w : World)
         (db : BaseDB),
    workerCount <= 0 ->
    env_open w 0%nat = inl db ->
    createConns cfg nm sid workerCount w
    = (if workerCount <? 0 then Abort Panic else Ok (Some db, [], None),
       snd (GetDownstreamDB (To cfg) w)).
Proof.
  intros cfg nm sid workerCount w db Hn Ho.
  unfold createConns, GetDownstreamDB. simpl. rewrite Ho.
  destruct (workerCount <? 0) eqn:E; [reflexivity|].
  apply Z.ltb_ge in E. replace workerCount with 0 by lia. reflexivity.
Qed.

Lemma createConns_without_workers_witness :
  createConns sample_cfg "worker" "mysql-01" (-3) healthy_world
  = (if -3 <? 0 then Abort Panic else Ok (Some {| db_id := 0 |}, [], None),
     snd (GetDownstreamDB (To sample_cfg) healthy_world)).
Proof.
  apply (createConns_without_workers sample_cfg "worker" "mysql-01" (-3) healthy_world
                                     {| db_id := 0 |}); [lia|reflexivity].
Defined.

(** X6. Every connection createConns returns, for any worker count, passes the
    validity test of querySQL and executeSQL, carries the given name and
    sourceID, and has a recovery capability that makes no statement call,
    touches no metric and never waits. *)
Theorem createConns_conns_are_ready :
  forall (cfg : SubTaskConfig) (nm sid : string) (workerCount : Z) (w w' : World)
         (db : option BaseDB) (conns : list DBConn),
    createConns cfg nm sid workerCount w = (Ok (db, conns, None), w') ->
    Forall (fun c => uninitialized (Some c) = false /\
                     name c = nm /\ sourceID c = sid /\
                     quiet_reset (resetBaseConnFn c)) conns.
Proof.
  intros cfg nm sid workerCount w w' db conns H.
  unfold createConns in H.
  destruct (GetDownstreamDB (To cfg) w) as [[bdb|err] w1]; [|discriminate].
  destruct (workerCount <? 0); [discriminate|].
  destruct (createConns_loop_spec (Z.to_nat workerCount) bdb nm sid [] w1)
    as [(hs & _ & _ & Hr & _)|(k & err & logs & _ & _ & Hr & _)];
    destruct (createConns_loop (Z.to_nat workerCount) bdb nm sid [] w1) as [r w2];
    simpl in Hr; subst r; inversion H; subst.
  apply Forall_forall. intros c Hin. apply in_map_iff in Hin as (h & Hc & _).
  subst c. simpl. repeat split. apply pool_resetBaseConnFn_quiet.
Qed.

Lemma createConns_conns_are_ready_witness :
  Forall (fun c => uninitialized (Some c) = false /\
                   name c = "worker"%string /\ sourceID c = "mysql-01"%string /\
                   quiet_reset (resetBaseConnFn c))
         [mkDBConn "worker" "mysql-01" (Some {| conn_id := 0 |})
                   (pool_resetBaseConnFn {| db_id := 0 |});
          mkDBConn "worker" "mysql-01" (Some {| conn_id := 1 |})
                   (pool_resetBaseConnFn {| db_id := 0 |})].
Proof.
  apply (createConns_conns_are_ready sample_cfg "worker" "mysql-01" 2 healthy_world
                                     (snd (createConns sample_cfg "worker" "mysql-01" 2
                                                       healthy_world))
                                     (Some {| db_id := 0 |})).
  reflexivity.
Defined.

(** * One attempt *)

(** X7. An attempt of querySQL makes exactly one QuerySQL call, on the handle
    the connection holds, with the statement and the arguments of the
    call, and does not change the connection.  On a clean result it
    records the latency whatever it is, and warns when it exceeds one
    second; on a failed attempt it records and logs nothing. *)
Theorem querySQL_attempt_trace :
  forall (query : string) (args : list Arg) (st : OpState),
    self (snd (querySQL_operateFn query args st)) = self st /\
    trace (world (snd (querySQL_operateFn query args st)))
    = match query_attempt_err (env_query (world st) 0%nat) with
      | None =>
          (if Second <? snd (env_query (world st) 0%nat)
           then [EvLog LogWarn "query statement too slow" None None]
           else [])
          ++ [EvObserve (name (self st)) (sourceID (self st))
                        (snd (env_query (world st) 0%nat))]
      | Some _ => []
      end
      ++ EvQuerySQL (baseConn (self st)) query args :: trace (world st).
Proof.
  intros query args st. rewrite querySQL_operateFn_eq.
  unfold query_attempt_err, QuerySQL. simpl.
  destruct (env_query (world st) 0%nat) as [[rows|err] cost]; simpl.
  - destruct (rows_err rows) as [e|]; simpl; [split; reflexivity|].
    destruct (Second <? cost); simpl; split; reflexivity.
  - split; reflexivity.
Qed.

(** X8. An attempt of executeSQL with the injection point not armed makes
    exactly one ExecuteSQL call, on the handle the connection holds, with
    the name of the connection and the whole batch; it returns the error
    of that call, warns when a successful call took more than one second,
    and touches neither the connection nor any metric. *)
Theorem executeSQL_attempt_unarmed :
  forall (queries : list string) (args : list (list Arg)) (st : OpState),
    env_failpoint (world st) 0%nat = None ->
    fst (executeSQL_operateFn queries args st) = Ok (None, fst (env_exec (world st) 0%nat)) /\
    self (snd (executeSQL_operateFn queries args st)) = self st /\
    trace (world (snd (executeSQL_operateFn queries args st)))
    = match fst (env_exec (world st) 0%nat) with
      | None =>
          if Second <? snd (env_exec (world st) 0%nat)
          then [EvLog LogWarn "execute transaction too slow" None None]
          else []
      | Some _ => []
      end
      ++ EvExecuteSQL (baseConn (self st)) (name (self st)) queries args
      :: trace (world st).
Proof.
  intros queries args st Hf.
  unfold executeSQL_operateFn, ExecuteSQL, failpoint_eval. simpl. rewrite Hf.
  destruct (env_exec (world st) 0%nat) as [[e|] cost]; simpl;
    [|unfold bind, ret, log; simpl; destruct (Second <? cost); simpl];
    repeat split.
Qed.

Lemma executeSQL_attempt_unarmed_witness :
  fst (executeSQL_operateFn ["DELETE FROM t"%string] [] (mkOp sample_conn deadlock_world))
  = Ok (None, fst (env_exec deadlock_world 0%nat)) /\
  self (snd (executeSQL_operateFn ["DELETE FROM t"%string] []
                                  (mkOp sample_conn deadlock_world))) = sample_conn /\
  trace (world (snd (executeSQL_operateFn ["DELETE FROM t"%string] []
                                          (mkOp sample_conn deadlock_world))))
  = match fst (env_exec deadlock_world 0%nat) with
    | None =>
        if Second <? snd (env_exec deadlock_world 0%nat)
        then [EvLog LogWarn "execute transaction too slow" None None]
        else []
    | Some _ => []
    end
    ++ EvExecuteSQL (baseConn sample_conn) (name sample_conn) ["DELETE FROM t"%string] []
    :: trace deadlock_world.
Proof.
  apply (executeSQL_attempt_unarmed ["DELETE FROM t"%string] []
                                    (mkOp sample_conn deadlock_world)).
  reflexivity.
Defined.

(** * The injection point, beyond a valid code *)

(** X9. The injected failure replaces the outcome of a statement that has
    really been executed: on a matching batch the ExecuteSQL call is made
    first, then the "executeSQL failed" warning is logged with the
    injected error, and no slow-execution warning follows, however long
    the call took and whatever it returned. *)
Theorem injection_follows_real_execution :
  forall (s : string) (code : Z) (q : string) (args : list (list Arg)) (st : OpState),
    ParseUint_10_16 s = Some code ->
    Contains q "CREATE TABLE" = true ->
    env_failpoint (world st) 0%nat = Some (ValString s) ->
    self (snd (executeSQL_operateFn [q] args st)) = self st /\
    trace (world (snd (executeSQL_operateFn [q] args st)))
    = [EvLog LogWarn "executeSQL failed" None (Some (MySQLError code ""));
       EvExecuteSQL (baseConn (self st)) (name (self st)) [q] args]
      ++ trace (world st).
Proof.
  intros s code q args st Hp Hc Hf.
  assert (Hmod : code mod 65536 = code).
  { apply Z.mod_small. apply ParseUint_10_16_range in Hp. lia. }
  unfold executeSQL_operateFn, ExecuteSQL, failpoint_eval. simpl. rewrite Hf.
  destruct (env_exec (world st) 0%nat) as [err0 cost]. simpl.
  unfold bind, LoadExecCreateTableFailed. rewrite Hp, Hc, Hmod. simpl.
  split; reflexivity.
Qed.

Lemma injection_follows_real_execution_witness :
  self (snd (executeSQL_operateFn ["CREATE TABLE `t` (id INT)"%string] []
                                  (mkOp sample_conn armed_world))) = sample_conn /\
  trace (world (snd (executeSQL_operateFn ["CREATE TABLE `t` (id INT)"%string] []
                                          (mkOp sample_conn armed_world))))
  = [EvLog LogWarn "executeSQL failed" None (Some (MySQLError 1050 ""));
     EvExecuteSQL (baseConn sample_conn) (name sample_conn)
                  ["CREATE TABLE `t` (id INT)"%string] []]
    ++ trace armed_world.
Proof.
  apply (injection_follows_real_execution "1050" 1050 "CREATE TABLE `t` (id INT)" []
                                          (mkOp sample_conn armed_world)); reflexivity.
Defined.

(** X10. An injection point armed with a string that is no 16-bit decimal
    number ends the process through Logger.Fatal, and one armed with a
    value that is no string panics, for every batch, matching or not, and
    in both cases after the ExecuteSQL call has been made. *)
Theorem invalid_injection_value_aborts :
  forall (queries : list string) (args : list (list Arg)) (st : OpState),
    (forall s : string,
        ParseUint_10_16 s = None ->
        env_failpoint (world st) 0%nat = Some (ValString s) ->
        fst (executeSQL_operateFn queries args st) = Abort Exit /\
        trace (world (snd (executeSQL_operateFn queries args st)))
        = [EvLog LogFatal "failpoint LoadExecCreateTableFailed's value is invalid"
                 None None;
           EvExecuteSQL (baseConn (self st)) (name (self st)) queries args]
          ++ trace (world st)) /\
    (forall val : failpoint_Value,
        (forall s : string, val <> ValString s) ->
        env_failpoint (world st) 0%nat = Some val ->
        fst (executeSQL_operateFn queries args st) = Abort Panic /\
        trace (world (snd (executeSQL_operateFn queries args st)))
        = EvExecuteSQL (baseConn (self st)) (name (self st)) queries args
          :: trace (world st)).
Proof.
  intros queries args st. split.
  - intros s Hp Hf.
    unfold executeSQL_operateFn, ExecuteSQL, failpoint_eval. simpl. rewrite Hf.
    destruct (env_exec (world st) 0%nat) as [err0 cost]. simpl.
    unfold bind, LoadExecCreateTableFailed. rewrite Hp. simpl. split; reflexivity.
  - intros val Hv Hf.
    unfold executeSQL_operateFn, ExecuteSQL, failpoint_eval. simpl. rewrite Hf.
    destruct (env_exec (world st) 0%nat) as [err0 cost]. simpl.
    unfold bind, LoadExecCreateTableFailed.
    destruct val as [s|z|b]; [now destruct (Hv s)| |]; split; reflexivity.
Qed.

Lemma invalid_injection_value_aborts_witness :
  (fst (executeSQL_operateFn ["DELETE FROM t"%string] [] (mkOp sample_conn misarmed_world))
   = Abort Exit /\
   trace (world (snd (executeSQL_operateFn ["DELETE FROM t"%string] []
                                           (mkOp sample_conn misarmed_world))))
   = [EvLog LogFatal "failpoint LoadExecCreateTableFailed's value is invalid" None None;
      EvExecuteSQL (baseConn sample_conn) (name sample_conn) ["DELETE FROM t"%string] []]
     ++ trace misarmed_world) /\
  (fst (executeSQL_operateFn ["DELETE FROM t"%string] []
                             (mkOp sample_conn int_armed_world))
   = Abort Panic /\
   trace (world (snd (executeSQL_operateFn ["DELETE FROM t"%string] []
                                           (mkOp sample_conn int_armed_world))))
   = EvExecuteSQL (baseConn sample_conn) (name sample_conn) ["DELETE FROM t"%string] []
     :: trace int_armed_world).
Proof.
  split.
  - apply (proj1 (invalid_injection_value_aborts ["DELETE FROM t"%string] []
                    (mkOp sample_conn misarmed_world)) "ER_TABLE_EXISTS"%string);
      reflexivity.
  - apply (proj2 (invalid_injection_value_aborts ["DELETE FROM t"%string] []
                    (mkOp sample_conn int_armed_world)) (ValInt 1050)).
    + intros s H. discriminate H.
    + reflexivity.
Defined.

(** * The retry decisions *)

(** X11. Both decisions never abort, and answer "retry" on a connection error
    exactly when the recovery succeeded, whatever IsRetryableError says of
    that error, and on any other error exactly when IsRetryableError
    holds.  In executeSQL the recovery runs on the trace that already has
    the counter increment. *)
Theorem decision_answers :
  forall (cls : Classifier) (i : Z) (e : error) (st : OpState),
    fst (querySQL_IsRetryableFn cls i e st)
    = Ok (if IsConnectionError cls e
          then match snd (fst (resetBaseConnFn (self st) (baseConn (self st)) (world st)))
               with
               | None => true
               | Some _ => false
               end
          else IsRetryableError cls e) /\
    fst (executeSQL_IsRetryableFn cls i e st)
    = Ok (if IsConnectionError cls e
          then match snd (fst (resetBaseConnFn
                                 (self st) (baseConn (self st))
                                 (push (EvInc (name (self st)) (sourceID (self st)))
                                       (world st))))
               with
               | None => true
               | Some _ => false
               end
          else IsRetryableError cls e).
Proof.
  intros cls i e st.
  unfold querySQL_IsRetryableFn, executeSQL_IsRetryableFn, bind, emit, resetConn.
  destruct (IsConnectionError cls e); cbn beta; cbn [self world].
  - split.
    + destruct (resetBaseConnFn (self st) (baseConn (self st)) (world st))
        as [[h [re|]] w']; reflexivity.
    + destruct (resetBaseConnFn (self st) (baseConn (self st))
                                (push (EvInc (name (self st)) (sourceID (self st)))
                                      (world st)))
        as [[h [re|]] w']; reflexivity.
  - destruct (IsRetryableError cls e); split; reflexivity.
Qed.

(** X12. The recovery capability is called on a connection error only: on any
    other error both decisions leave the connection and the answers of
    the environment as they are, and add to the trace only the counter
    increment (executeSQL) and, when the error is retryable, one
    warning. *)
Theorem decision_resets_on_connection_error_only :
  forall (cls : Classifier) (i : Z) (e : error) (st : OpState),
    IsConnectionError cls e = false ->
    snd (querySQL_IsRetryableFn cls i e st)
    = mkOp (self st)
           (if IsRetryableError cls e
            then push (EvLog LogWarn "query statement" (Some i) (Some e)) (world st)
            else world st) /\
    snd (executeSQL_IsRetryableFn cls i e st)
    = mkOp (self st)
           (if IsRetryableError cls e
            then push (EvLog LogWarn "execute statements" (Some i) (Some e))
                      (push (EvInc (name (self st)) (sourceID (self st))) (world st))
            else push (EvInc (name (self st)) (sourceID (self st))) (world st)).
Proof.
  intros cls i e [c w] Hc.
  unfold querySQL_IsRetryableFn, executeSQL_IsRetryableFn, bind, emit.
  rewrite Hc. destruct (IsRetryableError cls e); split; reflexivity.
Qed.

Lemma decision_resets_on_connection_error_only_witness :
  snd (querySQL_IsRetryableFn sample_classifier 4 (MySQLError 1213 "Deadlock found")
                              (mkOp sample_conn deadlock_world))
  = mkOp sample_conn
         (if IsRetryableError sample_classifier (MySQLError 1213 "Deadlock found")
          then push (EvLog LogWarn "query statement" (Some 4)
                           (Some (MySQLError 1213 "Deadlock found"))) deadlock_world
          else deadlock_world) /\
  snd (executeSQL_IsRetryableFn sample_classifier 4 (MySQLError 1213 "Deadlock found")
                                (mkOp sample_conn deadlock_world))
  = mkOp sample_conn
         (if IsRetryableError sample_classifier (MySQLError 1213 "Deadlock found")
          then push (EvLog LogWarn "execute statements" (Some 4)
                           (Some (MySQLError 1213 "Deadlock found")))
                    (push (EvInc (name sample_conn) (sourceID sample_conn)) deadlock_world)
          else push (EvInc (name sample_conn) (sourceID sample_conn)) deadlock_world).
Proof.
  apply (decision_resets_on_connection_error_only
           sample_classifier 4 (MySQLError 1213 "Deadlock found")
           (mkOp sample_conn deadlock_world)).
  reflexivity.
Defined.

(** X13. Whatever the recovery capability does, a decision keeps the name, the
    sourceID and the capability of the connection, and a decision that
    answers "stop" keeps the whole connection, handle included. *)
Theorem decision_keeps_connection :
  forall (cls : Classifier) (i : Z) (e : error) (st : OpState),
    (name (self (snd (querySQL_IsRetryableFn cls i e st))) = name (self st) /\
     sourceID (self (snd (querySQL_IsRetryableFn cls i e st))) = sourceID (self st) /\
     resetBaseConnFn (self (snd (querySQL_IsRetryableFn cls i e st)))
     = resetBaseConnFn (self st) /\
     (fst (querySQL_IsRetryableFn cls i e st) = Ok false ->
      self (snd (querySQL_IsRetryableFn cls i e st)) = self st)) /\
    (name (self (snd (executeSQL_IsRetryableFn cls i e st))) = name (self st) /\
     sourceID (self (snd (executeSQL_IsRetryableFn cls i e st))) = sourceID (self st) /\
     resetBaseConnFn (self (snd (executeSQL_IsRetryableFn cls i e st)))
     = resetBaseConnFn (self st) /\
     (fst (executeSQL_IsRetryableFn cls i e st) = Ok false ->
      self (snd (executeSQL_IsRetryableFn cls i e st)) = self st)).
Proof.
  intros cls i e st.
  unfold querySQL_IsRetryableFn, executeSQL_IsRetryableFn, bind, emit, resetConn.
  destruct (IsConnectionError cls e); cbn beta; cbn [self world].
  - split.
    + destruct (resetBaseConnFn (self st) (baseConn (self st)) (world st))
        as [[h [re|]] w']; simpl; repeat split; discriminate.
    + destruct (resetBaseConnFn (self st) (baseConn (self st))
                                (push (EvInc (name (self st)) (sourceID (self st)))
                                      (world st)))
        as [[h [re|]] w']; simpl; repeat split; discriminate.
  - destruct (IsRetryableError cls e); simpl; repeat split.
Qed.

Lemma decision_keeps_connection_witness :
  self (snd (querySQL_IsRetryableFn sample_classifier 0 err_invalid_conn
                                    (mkOp sample_conn refused_world))) = sample_conn /\
  self (snd (executeSQL_IsRetryableFn sample_classifier 0 err_invalid_conn
                                      (mkOp sample_conn refused_world))) = sample_conn.
Proof.
  destruct (decision_keeps_connection sample_classifier 0 err_invalid_conn
                                      (mkOp sample_conn refused_world))
    as ((_ & _ & _ & Hq) & (_ & _ & _ & He)).
  split; [apply Hq|apply He]; reflexivity.
Defined.

(** * Whole operations (the retry loop is the one modelled from the spec) *)

Lemma ApplyRetryStrategy_first_success {R : Type} (params : Params)
      (op : M (option R * option error)) (st st1 : OpState) (r : option R) :
  (0 < RetryCount params) ->
  op st = (Ok (r, None), st1) ->
  ApplyRetryStrategy params op st = (Ok (r, 0, None), st1).
Proof.
  intros Hn Hop. unfold ApplyRetryStrategy.
  destruct (Z.to_nat (RetryCount params)) as [|n] eqn:E; [lia|].
  now rewrite Apply_from_S, Hop.
Qed.

Lemma ApplyRetryStrategy_first_stop {R : Type} (params : Params)
      (op : M (option R * option error)) (st st1 st2 : OpState) (r : option R)
      (e : error) :
  (0 < RetryCount params) ->
  op st = (Ok (r, Some e), st1) ->
  IsRetryableFn params 0 e st1 = (Ok false, st2) ->
  ApplyRetryStrategy params op st = (Ok (r, 0, Some e), st2).
Proof.
  intros Hn Hop Hdec. unfold ApplyRetryStrategy.
  destruct (Z.to_nat (RetryCount params)) as [|n] eqn:E; [lia|].
  now rewrite Apply_from_S, Hop, Hdec.
Qed.

(** X14. A first attempt that ends without error is the whole operation: the
    result is that of the attempt (for querySQL the rows the database
    answered) and the environment is the one the attempt left; no decision
    is taken, nothing waits, no counter moves and the connection is
    unchanged. *)
Theorem first_attempt_success_is_the_run :
  forall (cls : Classifier) (c : DBConn) (h : BaseConn) (w : World),
    baseConn c = Some h ->
    (forall (query : string) (args : list Arg),
        query_attempt_err (env_query w 0%nat) = None ->
        exists rows,
          fst (env_query w 0%nat) = inl rows /\
          querySQL cls (Some c) query args w
          = (Ok (Some rows, None), Some c,
             world (snd (querySQL_operateFn query args (mkOp c w))))) /\
    (forall (q0 : string) (queries : list string) (eargs : list (list Arg)),
        execute_attempt_err (q0 :: queries) (env_failpoint w 0%nat)
                            (fst (env_exec w 0%nat)) = Ok None ->
        executeSQL cls (Some c) (q0 :: queries) eargs w
        = (Ok None, Some c,
           world (snd (executeSQL_operateFn (q0 :: queries) eargs (mkOp c w))))).
Proof.
  intros cls c h w Hh. split.
  - intros query args He.
    unfold query_attempt_err in He.
    destruct (env_query w 0%nat) as [[rows|err] cost] eqn:Eq; simpl in He;
      [|discriminate].
    exists rows. split; [reflexivity|].
    assert (Hop : querySQL_operateFn query args (mkOp c w)
                  = (Ok (Some rows, None),
                     snd (querySQL_operateFn query args (mkOp c w)))).
    { rewrite querySQL_operateFn_eq. cbv zeta. cbn [self world].
      rewrite Eq, He. reflexivity. }
    unfold querySQL. rewrite Hh.
    rewrite (ApplyRetryStrategy_first_success (querySQL_params cls) _ _ _ _
                                              eq_refl Hop).
    destruct (querySQL_operateFn_spec query args (mkOp c w)) as (Hself & _).
    simpl in Hself. now rewrite Hself.
  - intros q0 queries eargs He.
    destruct (executeSQL_operateFn_spec (q0 :: queries) eargs (mkOp c w))
      as (Hres & Hself & _).
    simpl in Hres, Hself. rewrite He in Hres.
    assert (Hop : executeSQL_operateFn (q0 :: queries) eargs (mkOp c w)
                  = (Ok (None, None),
                     snd (executeSQL_operateFn (q0 :: queries) eargs (mkOp c w)))).
    { destruct (executeSQL_operateFn (q0 :: queries) eargs (mkOp c w)) as [ro st1].
      simpl in Hres. now subst ro. }
    unfold executeSQL. rewrite Hh.
    rewrite (ApplyRetryStrategy_first_success (executeSQL_params cls) _ _ _ _
                                              eq_refl Hop).
    now rewrite Hself.
Qed.

Lemma first_attempt_success_is_the_run_witness :
  (exists rows,
      fst (env_query healthy_world 0%nat) = inl rows /\
      querySQL sample_classifier (Some sample_conn) "SELECT 1" [] healthy_world
      = (Ok (Some rows, None), Some sample_conn,
         world (snd (querySQL_operateFn "SELECT 1" [] (mkOp sample_conn healthy_world))))) /\
  executeSQL sample_classifier (Some sample_conn) ["DELETE FROM t"%string] []
             healthy_world
  = (Ok None, Some sample_conn,
     world (snd (executeSQL_operateFn ["DELETE FROM t"%string] []
                                      (mkOp sample_conn healthy_world)))).
Proof.
  destruct (first_attempt_success_is_the_run sample_classifier sample_conn
                                             {| conn_id := 0 |} healthy_world eq_refl)
    as [Hq He].
  split.
  - apply (Hq "SELECT 1"%string []). reflexivity.
  - apply (He "DELETE FROM t"%string [] []). reflexivity.
Defined.

(** X15. A first attempt that fails with an error that is neither a connection
    error nor retryable (a duplicate key, an object that exists) ends the
    operation at once: the error is returned as it is after that single
    attempt, with no wait and no recovery, the connection unchanged; the
    trace gains the attempt, the counter increment (executeSQL) and the
    final error record. *)
Theorem fatal_first_attempt_returns_at_once :
  forall (cls : Classifier) (c : DBConn) (h : BaseConn) (w : World) (e : error),
    baseConn c = Some h ->
    classify cls e = FatalStatementError ->
    (forall (query : string) (args : list Arg),
        query_attempt_err (env_query w 0%nat) = Some e ->
        querySQL cls (Some c) query args w
        = (Ok (None, Some e), Some c,
           push (EvLog LogErrorFilterContextCanceled
                       "query statement failed after retry" None (Some e))
                (snd (QuerySQL (Some h) query args w)))) /\
    (forall (q0 : string) (queries : list string) (eargs : list (list Arg)),
        execute_attempt_err (q0 :: queries) (env_failpoint w 0%nat)
                            (fst (env_exec w 0%nat)) = Ok (Some e) ->
        executeSQL cls (Some c) (q0 :: queries) eargs w
        = (Ok (Some e), Some c,
           push (EvLog LogErrorFilterContextCanceled
                       "execute statements failed after retry" None (Some e))
                (push (EvInc (name c) (sourceID c))
                      (world (snd (executeSQL_operateFn (q0 :: queries) eargs
                                                        (mkOp c w))))))).
Proof.
  intros cls c h w e Hh Hc. split.
  - intros query args He.
    destruct (querySQL_operateFn_failed query args (mkOp c w) e He) as [r Hop].
    unfold querySQL. rewrite Hh.
    rewrite (ApplyRetryStrategy_first_stop
               (querySQL_params cls) _ _ _ _ _ _ eq_refl Hop
               (querySQL_IsRetryableFn_fatal cls 0 e _ Hc)).
    cbn [self world]. now rewrite Hh.
  - intros q0 queries eargs He.
    destruct (executeSQL_operateFn_spec (q0 :: queries) eargs (mkOp c w))
      as (Hres & Hself & _).
    simpl in Hres, Hself. rewrite He in Hres.
    destruct (executeSQL_operateFn (q0 :: queries) eargs (mkOp c w)) as [ro st1] eqn:Hop.
    simpl in Hres, Hself. subst ro.
    unfold executeSQL. rewrite Hh.
    rewrite (ApplyRetryStrategy_first_stop
               (executeSQL_params cls) _ _ _ _ _ _ eq_refl Hop
               (executeSQL_IsRetryableFn_fatal cls 0 e st1 Hc)).
    cbn [self world snd]. now rewrite Hself.
Qed.

Lemma fatal_first_attempt_returns_at_once_witness :
  querySQL sample_classifier (Some sample_conn) "INSERT INTO t VALUES (1)" []
           duplicate_world
  = (Ok (None, Some (MySQLError 1062 "Duplicate entry")), Some sample_conn,
     push (EvLog LogErrorFilterContextCanceled
                 "query statement failed after retry" None
                 (Some (MySQLError 1062 "Duplicate entry")))
          (snd (QuerySQL (Some {| conn_id := 0 |}) "INSERT INTO t VALUES (1)" []
                         duplicate_world))) /\
  executeSQL sample_classifier (Some sample_conn) ["INSERT INTO t VALUES (1)"%string] []
             duplicate_world
  = (Ok (Some (MySQLError 1062 "Duplicate entry")), Some sample_conn,
     push (EvLog LogErrorFilterContextCanceled
                 "execute statements failed after retry" None
                 (Some (MySQLError 1062 "Duplicate entry")))
          (push (EvInc (name sample_conn) (sourceID sample_conn))
                (world (snd (executeSQL_operateFn ["INSERT INTO t VALUES (1)"%string] []
                                                  (mkOp sample_conn duplicate_world)))))).
Proof.
  destruct (fatal_first_attempt_returns_at_once
              sample_classifier sample_conn {| conn_id := 0 |} duplicate_world
              (MySQLError 1062 "Duplicate entry") eq_refl eq_refl)
    as [Hq He].
  split.
  - apply (Hq "INSERT INTO t VALUES (1)"%string []). reflexivity.
  - apply (He "INSERT INTO t VALUES (1)"%string [] []). reflexivity.
Defined.

(** X16. Any run of querySQL on a connection with a handle and a quiet recovery
    makes at least one and at most ten QuerySQL calls, never touches the
    execution-error counter, and records exactly one latency observation
    when it returns rows and none when it returns an error. *)
Theorem querySQL_run_bounds :
  forall (cls : Classifier) (c : DBConn) (h : BaseConn) (query : string)
         (args : list Arg) (w : World),
    baseConn c = Some h ->
    quiet_reset (resetBaseConnFn c) ->
    (exists k,
        (1 <= k <= 10)%nat /\
        db_calls (trace (snd (querySQL cls (Some c) query args w)))
        = (db_calls (trace w) + k)%nat) /\
    incs (trace (snd (querySQL cls (Some c) query args w))) = incs (trace w) /\
    List.length (observes (trace (snd (querySQL cls (Some c) query args w))))
    = (List.length (observes (trace w))
       + match fst (fst (querySQL cls (Some c) query args w)) with
         | Ok (_, None) => 1
         | _ => 0
         end)%nat.
Proof.
  intros cls c h query args w Hh Hq.
  destruct (querySQL_run_shape cls c h query args w Hh Hq)
    as (k & m & _ & Hk & Hc & Hi & _ & Ho).
  split; [exists k; split; assumption|]. split; [exact Hi|].
  destruct (fst (fst (querySQL cls (Some c) query args w))) as [[r [e|]]|why].
  - rewrite Ho. lia.
  - destruct Ho as [cost Ho]. rewrite Ho. simpl. lia.
  - rewrite Ho. lia.
Qed.

Lemma querySQL_run_bounds_witness :
  (exists k,
      (1 <= k <= 10)%nat /\
      db_calls (trace (snd (querySQL sample_classifier (Some sample_conn) "SELECT 1" []
                                     lossy_world)))
      = (db_calls (trace lossy_world) + k)%nat) /\
  incs (trace (snd (querySQL sample_classifier (Some sample_conn) "SELECT 1" []
                             lossy_world)))
  = incs (trace lossy_world) /\
  List.length (observes (trace (snd (querySQL sample_classifier (Some sample_conn)
                                              "SELECT 1" [] lossy_world))))
  = (List.length (observes (trace lossy_world))
     + match fst (fst (querySQL sample_classifier (Some sample_conn) "SELECT 1" []
                                lossy_world)) with
       | Ok (_, None) => 1
       | _ => 0
       end)%nat.
Proof.
  apply (querySQL_run_bounds sample_classifier sample_conn {| conn_id := 0 |}).
  - reflexivity.
  - apply pool_resetBaseConnFn_quiet.
Defined.

Lemma querySQL_IsRetryableFn_reset_ok (cls : Classifier) (i : Z) (e : error)
      (st st2 : OpState) :
  IsConnectionError cls e = true ->
  resetConn st = (Ok None, st2) ->
  querySQL_IsRetryableFn cls i e st = (Ok true, st2).
Proof.
  intros Hc Hr. unfold querySQL_IsRetryableFn, bind. now rewrite Hc, Hr.
Qed.

Lemma querySQL_loop_recovers (cls : Classifier) (query : string) (args : list Arg)
      (db : BaseDB) (k : nat) :
  forall (n : nat) (st : OpState) (i : Z) (r0 : option Rows) (e0 : option error),
    (k < n)%nat ->
    resetBaseConnFn (self st) = pool_resetBaseConnFn db ->
    (forall j, (j < k)%nat ->
               exists e, query_attempt_err (env_query (world st) j) = Some e /\
                         IsConnectionError cls e = true) ->
    (forall j, (j < k)%nat -> exists h, env_getconn (world st) j = inl h) ->
    (forall j, (j < k)%nat -> env_done (world st) j = false) ->
    query_attempt_err (env_query (world st) k) = None ->
    (exists rows,
        fst (env_query (world st) k) = inl rows /\
        fst (Apply_from n i r0 e0 (querySQL_params cls) (querySQL_operateFn query args) st)
        = Ok (Some rows, i + Z.of_nat k, None)) /\
    self (snd (Apply_from n i r0 e0 (querySQL_params cls)
                          (querySQL_operateFn query args) st))
    = mkDBConn (name (self st)) (sourceID (self st)) (held (self st) (world st) k)
               (resetBaseConnFn (self st)) /\
    force_closed (trace (world (snd (Apply_from n i r0 e0 (querySQL_params cls)
                                                (querySQL_operateFn query args) st))))
    = rev (map (held (self st) (world st)) (seq 0 k)) ++ force_closed (trace (world st)) /\
    queried (trace (world (snd (Apply_from n i r0 e0 (querySQL_params cls)
                                           (querySQL_operateFn query args) st))))
    = rev (map (held (self st) (world st)) (seq 0 (S k))) ++ queried (trace (world st)).
Proof.
  induction k as [|k IH]; intros n st i r0 e0 Hkn Hcap Herr Hget Hdone Hok;
    (destruct n as [|n]; [lia|]); rewrite Apply_from_S, querySQL_operateFn_eq;
    cbv zeta; unfold query_attempt_err in Hok.
  - destruct st as [c w]. cbn [self world] in *.
    destruct (env_query w 0%nat) as [[rows|err] cost]; simpl in Hok; [|discriminate].
    rewrite Hok. cbn [fst snd self world]. split; [|split; [|split]].
    + exists rows. split; [reflexivity|]. now rewrite Z.add_0_r.
    + destruct c; reflexivity.
    + unfold QuerySQL. destruct (Second <? cost); reflexivity.
    + unfold QuerySQL. destruct (Second <? cost); reflexivity.
  - destruct (Herr 0%nat) as (e & He & Hc); [lia|].
    destruct (Hget 0%nat) as (h & Hh); [lia|].
    destruct st as [c w]. cbn [self world] in *.
    unfold query_attempt_err in He.
    assert (Hfail : exists r,
               match env_query w 0%nat with
               | (inl rows, cost) =>
                   match rows_err rows with
                   | Some e1 =>
                       (Ok (Some rows, Some e1),
                        mkOp c (snd (QuerySQL (baseConn c) query args w)))
                   | None =>
                       (Ok (Some rows, None),
                        mkOp c
                             (if Second <? cost
                              then push (EvLog LogWarn "query statement too slow"
                                               None None)
                                        (push (EvObserve (name c) (sourceID c) cost)
                                              (snd (QuerySQL (baseConn c) query args w)))
                              else push (EvObserve (name c) (sourceID c) cost)
                                        (snd (QuerySQL (baseConn c) query args w))))
                   end
               | (inr err, _) =>
                   (Ok (None, Some err),
                    mkOp c (snd (QuerySQL (baseConn c) query args w)))
               end
               = (Ok (r, Some e), mkOp c (snd (QuerySQL (baseConn c) query args w)))).
    { destruct (env_query w 0%nat) as [[rows|err] cost]; simpl in He.
      - rewrite He. now eexists.
      - inversion He; subst. now eexists. }
    destruct Hfail as [r Hfail]. rewrite Hfail. clear Hfail.
    change (IsRetryableFn (querySQL_params cls)) with (querySQL_IsRetryableFn cls).
    destruct (resetConn_pool_succeeds db c (snd (QuerySQL (baseConn c) query args w)) h
                                      Hcap Hh)
      as (Hr & Hself & Hfc & Hqd & Hgc & Hqy & _ & Hdn & _).
    destruct (resetConn (mkOp c (snd (QuerySQL (baseConn c) query args w))))
      as [rr [c2 w2]] eqn:Hreset.
    cbn [fst snd self world] in Hr, Hself, Hfc, Hqd, Hgc, Hqy, Hdn. subst rr.
    rewrite (querySQL_IsRetryableFn_reset_ok cls i e _ _ Hc Hreset).
    cbn [self world]. unfold wait_or_done at 1. cbn [fst snd].
    rewrite Hdn. simpl env_done. rewrite (Hdone 0%nat) by lia.
    assert (Hheld : forall j, held c2 (snd (wait_or_done
                                              (backoff_duration (querySQL_params cls) i)
                                              w2)) j
                              = held c w (S j)).
    { apply (held_after_reset c c2 w _ h Hh); [now rewrite Hself|].
      simpl. now rewrite Hgc. }
    match goal with
    | |- context [Apply_from n (i + 1) r (Some e) _ _ ?st3] =>
        destruct (IH n st3 (i + 1) r (Some e))
          as ((rows & Hrows & Hres) & Hs' & Hfc' & Hqd')
    end.
    + lia.
    + cbn [self]. now rewrite Hself.
    + intros j Hj. cbn [world]. simpl env_query. rewrite Hqy. simpl.
      unfold next. apply Herr. lia.
    + intros j Hj. cbn [world]. simpl env_getconn. rewrite Hgc. simpl.
      unfold next. apply Hget. lia.
    + intros j Hj. cbn [world]. simpl env_done. rewrite Hdn. simpl.
      unfold next. apply Hdone. lia.
    + cbn [world]. simpl env_query. rewrite Hqy. simpl. unfold next. exact Hok.
    + cbn [self world] in Hrows, Hres, Hs', Hfc', Hqd'.
      simpl env_query in Hrows. rewrite Hqy in Hrows. simpl in Hrows.
      unfold next in Hrows.
      split; [|split; [|split]].
      * exists rows. split; [exact Hrows|]. rewrite Hres. do 3 f_equal. lia.
      * rewrite Hs', Hheld, Hself. simpl. now rewrite Hcap.
      * rewrite Hfc'. rewrite (map_ext _ _ Hheld).
        simpl trace. simpl force_closed. rewrite Hfc. simpl force_closed.
        apply (rev_map_seq_S (held c w) k).
      * rewrite Hqd'. rewrite (map_ext _ _ Hheld).
        simpl trace. simpl queried. rewrite Hqd. simpl queried.
        apply (rev_map_seq_S (held c w) (S k)).
Qed.

(** X17. On a connection of the pool, when the first [k] attempts (k < 10) of
    querySQL fail with a connection error, each recovery obtains a new
    handle, the waits are not cancelled and the next attempt is clean:
    querySQL returns the rows of that attempt; the recovery has run
    exactly [k] times, force-closing one after the other the handles the
    connection held; attempt [j] was made on the handle obtained by the
    recovery before it; and the connection ends with the last handle
    obtained, its name, sourceID and capability unchanged. *)
Theorem querySQL_recovers_lost_connections :
  forall (cls : Classifier) (db : BaseDB) (c : DBConn) (h : BaseConn) (query : string)
         (args : list Arg) (w : World) (k : nat),
    baseConn c = Some h ->
    resetBaseConnFn c = pool_resetBaseConnFn db ->
    (k < 10)%nat ->
    (forall j, (j < k)%nat ->
               exists e, query_attempt_err (env_query w j) = Some e /\
                         IsConnectionError cls e = true) ->
    (forall j, (j < k)%nat -> exists h', env_getconn w j = inl h') ->
    (forall j, (j < k)%nat -> env_done w j = false) ->
    query_attempt_err (env_query w k) = None ->
    (exists rows,
        fst (env_query w k) = inl rows /\
        fst (querySQL cls (Some c) query args w)
        = (Ok (Some rows, None),
           Some (mkDBConn (name c) (sourceID c) (held c w k) (resetBaseConnFn c)))) /\
    force_closed (trace (snd (querySQL cls (Some c) query args w)))
    = rev (map (held c w) (seq 0 k)) ++ force_closed (trace w) /\
    queried (trace (snd (querySQL cls (Some c) query args w)))
    = rev (map (held c w) (seq 0 (S k))) ++ queried (trace w).
Proof.
  intros cls db c h query args w k Hh Hcap Hk Herr Hget Hdone Hok.
  destruct (querySQL_loop_recovers cls query args db k 10 (mkOp c w) 0 None None
                                   Hk Hcap Herr Hget Hdone Hok)
    as ((rows & Hrows & Hres) & Hself & Hfc & Hqd).
  unfold querySQL, ApplyRetryStrategy. rewrite Hh.
  change (Z.to_nat (RetryCount (querySQL_params cls))) with 10%nat.
  destruct (Apply_from 10 0 None None (querySQL_params cls)
                       (querySQL_operateFn query args) (mkOp c w)) as [ro st'].
  cbn [fst snd self world] in Hrows, Hres, Hself, Hfc, Hqd. subst ro.
  cbn [fst snd]. rewrite Hself. split; [|split; assumption].
  exists rows. split; [exact Hrows|reflexivity].
Qed.

Lemma querySQL_recovers_lost_connections_witness :
  (exists rows,
      fst (env_query lossy_world 3%nat) = inl rows /\
      fst (querySQL sample_classifier (Some sample_conn) "SELECT 1" [] lossy_world)
      = (Ok (Some rows, None),
         Some (mkDBConn (name sample_conn) (sourceID sample_conn)
                        (held sample_conn lossy_world 3)
                        (resetBaseConnFn sample_conn)))) /\
  force_closed (trace (snd (querySQL sample_classifier (Some sample_conn) "SELECT 1" []
                                     lossy_world)))
  = rev (map (held sample_conn lossy_world) (seq 0 3)) ++ force_closed (trace lossy_world) /\
  queried (trace (snd (querySQL sample_classifier (Some sample_conn) "SELECT 1" []
                                lossy_world)))
  = rev (map (held sample_conn lossy_world) (seq 0 4)) ++ queried (trace lossy_world).
Proof.
  apply (querySQL_recovers_lost_connections
           sample_classifier {| db_id := 0 |} sample_conn {| conn_id := 0 |}
           "SELECT 1" [] lossy_world 3).
  - reflexivity.
  - reflexivity.
  - lia.
  - intros j Hj. exists err_invalid_conn.
    destruct j as [|[|[|j]]]; [split; reflexivity ..|lia].
  - intros j _. eexists. reflexivity.
  - intros j _. reflexivity.
  - reflexivity.
Defined.

Lemma executeSQL_operateFn_frame (queries : list string) (args : list (list Arg))
      (st : OpState) :
  env_getconn (world (snd (executeSQL_operateFn queries args st)))
  = env_getconn (world st) /\
  force_closed (trace (world (snd (executeSQL_operateFn queries args st))))
  = force_closed (trace (world st)) /\
  executed (trace (world (snd (executeSQL_operateFn queries args st))))
  = baseConn (self st) :: executed (trace (world st)).
Proof.
  unfold executeSQL_operateFn, ExecuteSQL, failpoint_eval. simpl.
  destruct (env_exec (world st) 0%nat) as [err0 cost]. simpl.
  unfold bind.
  destruct (env_failpoint (world st) 0%nat) as [[s|z|b]|]; simpl;
    [destruct (ParseUint_10_16 s) as [code|]; simpl;
     [destruct queries as [|q [|q' qs]]; simpl;
      [|destruct (Contains q "CREATE TABLE"); simpl|]|]| | |];
    try (destruct err0 as [e|]; simpl);
    try (destruct (Second <? cost); simpl);
    repeat split.
Qed.

Lemma resetConn_pool_keeps_metrics (db : BaseDB) (c : DBConn) (w : World) :
  resetBaseConnFn c = pool_resetBaseConnFn db ->
  incs (trace (world (snd (resetConn (mkOp c w))))) = incs (trace w) /\
  executed (trace (world (snd (resetConn (mkOp c w))))) = executed (trace w).
Proof.
  intros Hcap. unfold resetConn. simpl. rewrite Hcap.
  unfold pool_resetBaseConnFn, ForceCloseConn, GetBaseConn. simpl.
  destruct (env_forceclose w 0%nat); simpl;
    destruct (env_getconn w 0%nat); simpl; split; reflexivity.
Qed.

Lemma executeSQL_IsRetryableFn_reset_ok (cls : Classifier) (i : Z) (e : error)
      (st st2 : OpState) :
  IsConnectionError cls e = true ->
  resetConn (mkOp (self st) (push (EvInc (name (self st)) (sourceID (self st)))
                                  (world st))) = (Ok None, st2) ->
  executeSQL_IsRetryableFn cls i e st = (Ok true, st2).
Proof.
  intros Hc Hr. unfold executeSQL_IsRetryableFn, bind, emit. now rewrite Hc, Hr.
Qed.

Lemma executeSQL_loop_recovers (cls : Classifier) (queries : list string)
      (args : list (list Arg)) (db : BaseDB) (k : nat) :
  forall (n : nat) (st : OpState) (i : Z) (r0 : option unit) (e0 : option error),
    (k < n)%nat ->
    resetBaseConnFn (self st) = pool_resetBaseConnFn db ->
    (forall j, (j < k)%nat ->
               exists e,
                 execute_attempt_err queries (env_failpoint (world st) j)
                                     (fst (env_exec (world st) j)) = Ok (Some e) /\
                 IsConnectionError cls e = true) ->
    (forall j, (j < k)%nat -> exists h, env_getconn (world st) j = inl h) ->
    (forall j, (j < k)%nat -> env_done (world st) j = false) ->
    execute_attempt_err queries (env_failpoint (world st) k)
                        (fst (env_exec (world st) k)) = Ok None ->
    fst (Apply_from n i r0 e0 (executeSQL_params cls)
                    (executeSQL_operateFn queries args) st)
    = Ok (None, i + Z.of_nat k, None) /\
    self (snd (Apply_from n i r0 e0 (executeSQL_params cls)
                          (executeSQL_operateFn queries args) st))
    = mkDBConn (name (self st)) (sourceID (self st)) (held (self st) (world st) k)
               (resetBaseConnFn (self st)) /\
    force_closed (trace (world (snd (Apply_from n i r0 e0 (executeSQL_params cls)
                                                (executeSQL_operateFn queries args) st))))
    = rev (map (held (self st) (world st)) (seq 0 k)) ++ force_closed (trace (world st)) /\
    executed (trace (world (snd (Apply_from n i r0 e0 (executeSQL_params cls)
                                            (executeSQL_operateFn queries args) st))))
    = rev (map (held (self st) (world st)) (seq 0 (S k))) ++ executed (trace (world st)) /\
    incs (trace (world (snd (Apply_from n i r0 e0 (executeSQL_params cls)
                                        (executeSQL_operateFn queries args) st))))
    = repeat (name (self st), sourceID (self st)) k ++ incs (trace (world st)).
Proof.
  induction k as [|k IH]; intros n st i r0 e0 Hkn Hcap Herr Hget Hdone Hok;
    (destruct n as [|n]; [lia|]); rewrite Apply_from_S;
    destruct (executeSQL_operateFn_spec queries args st)
      as (Hres & Hself1 & (logs & Htr1 & Hql) & Hexec & Hdn1 & Hfp);
    destruct (executeSQL_operateFn_frame queries args st) as (Hgc1 & Hfc1 & Hex1);
    destruct (quiet_measures logs
                (EvExecuteSQL (baseConn (self st)) (name (self st)) queries args
                              :: trace (world st)) Hql) as (_ & M2 & _);
    destruct (executeSQL_operateFn queries args st) as [ro [c1 w1]];
    cbn [fst snd self world] in Hres, Hself1, Htr1, Hexec, Hdn1, Hfp, Hgc1, Hfc1, Hex1;
    rewrite <- Htr1 in M2; simpl in M2; subst c1.
  - rewrite Hok in Hres. subst ro. cbn [fst snd self world].
    rewrite Z.add_0_r. split; [reflexivity|]. split; [|split; [|split]].
    + destruct (self st); reflexivity.
    + exact Hfc1.
    + exact Hex1.
    + exact M2.
  - destruct (Herr 0%nat) as (e & He & Hc); [lia|].
    destruct (Hget 0%nat) as (h & Hh); [lia|].
    rewrite He in Hres. subst ro.
    change (IsRetryableFn (executeSQL_params cls)) with (executeSQL_IsRetryableFn cls).
    assert (Hh1 : env_getconn (push (EvInc (name (self st)) (sourceID (self st))) w1)
                              0%nat = inl h).
    { simpl. now rewrite Hgc1. }
    destruct (resetConn_pool_succeeds
                db (self st) (push (EvInc (name (self st)) (sourceID (self st))) w1) h
                Hcap Hh1)
      as (Hr & Hself & Hfc & _ & Hgc & _ & Hex & Hdn & Hfpr).
    destruct (resetConn_pool_keeps_metrics
                db (self st) (push (EvInc (name (self st)) (sourceID (self st))) w1) Hcap)
      as (Hinc & Hexd).
    destruct (resetConn (mkOp (self st)
                              (push (EvInc (name (self st)) (sourceID (self st))) w1)))
      as [rr [c2 w2]] eqn:Hreset.
    cbn [fst snd self world] in Hr, Hself, Hfc, Hgc, Hex, Hdn, Hfpr, Hinc, Hexd.
    subst rr.
    rewrite (executeSQL_IsRetryableFn_reset_ok cls i e (mkOp (self st) w1) _ Hc Hreset).
    cbn [self world]. unfold wait_or_done at 1. cbn [fst snd].
    rewrite Hdn. simpl env_done. rewrite Hdn1, (Hdone 0%nat) by lia.
    simpl in Hfc, Hgc, Hex, Hdn, Hfpr, Hinc, Hexd.
    assert (Hheld : forall j, held c2 (snd (wait_or_done
                                              (backoff_duration (executeSQL_params cls) i)
                                              w2)) j
                              = held (self st) (world st) (S j)).
    { apply (held_after_reset (self st) c2 (world st) _ h Hh); [now rewrite Hself|].
      simpl. now rewrite Hgc, Hgc1. }
    match goal with
    | |- context [Apply_from n (i + 1) None (Some e) _ _ ?st3] =>
        destruct (IH n st3 (i + 1) None (Some e))
          as (Hres' & Hs' & Hfc' & Hex' & Hinc')
    end.
    + lia.
    + cbn [self]. now rewrite Hself.
    + intros j Hj. cbn [world]. simpl env_failpoint. simpl env_exec.
      rewrite Hfpr, Hex, Hfp, Hexec. unfold next. apply Herr. lia.
    + intros j Hj. cbn [world]. simpl env_getconn. rewrite Hgc, Hgc1.
      unfold next. apply Hget. lia.
    + intros j Hj. cbn [world]. simpl env_done. rewrite Hdn, Hdn1.
      unfold next. apply Hdone. lia.
    + cbn [world]. simpl env_failpoint. simpl env_exec.
      rewrite Hfpr, Hex, Hfp, Hexec. unfold next. exact Hok.
    + cbn [self world] in Hres', Hs', Hfc', Hex', Hinc'.
      split; [|split; [|split; [|split]]].
      * rewrite Hres'. do 3 f_equal. lia.
      * rewrite Hs', Hheld, Hself. simpl. now rewrite Hcap.
      * rewrite Hfc'. rewrite (map_ext _ _ Hheld).
        simpl trace. simpl force_closed. rewrite Hfc, Hfc1.
        apply (rev_map_seq_S (held (self st) (world st)) k).
      * rewrite Hex'. rewrite (map_ext _ _ Hheld).
        simpl trace. simpl executed. rewrite Hexd, Hex1.
        apply (rev_map_seq_S (held (self st) (world st)) (S k)).
      * rewrite Hinc'. simpl trace. simpl incs. rewrite Hinc, M2, Hself. simpl.
        apply repeat_snoc_app.
Qed.

(** X18. The same for executeSQL on a non-empty batch: after [k] < 10 attempts
    lost to a connection error, each followed by a successful recovery,
    and a clean attempt, executeSQL returns nil; the whole batch has been
    sent k + 1 times, each time on the handle held at that moment; the
    [k] handles replaced have been force-closed in turn; the counter has
    been incremented exactly [k] times with the labels of the connection;
    and the connection ends with the last handle obtained. *)
Theorem executeSQL_recovers_lost_connections :
  forall (cls : Classifier) (db : BaseDB) (c : DBConn) (h : BaseConn) (q0 : string)
         (queries : list string) (eargs : list (list Arg)) (w : World) (k : nat),
    baseConn c = Some h ->
    resetBaseConnFn c = pool_resetBaseConnFn db ->
    (k < 10)%nat ->
    (forall j, (j < k)%nat ->
               exists e,
                 execute_attempt_err (q0 :: queries) (env_failpoint w j)
                                     (fst (env_exec w j)) = Ok (Some e) /\
                 IsConnectionError cls e = true) ->
    (forall j, (j < k)%nat -> exists h', env_getconn w j = inl h') ->
    (forall j, (j < k)%nat -> env_done w j = false) ->
    execute_attempt_err (q0 :: queries) (env_failpoint w k) (fst (env_exec w k))
    = Ok None ->
    fst (executeSQL cls (Some c) (q0 :: queries) eargs w)
    = (Ok None, Some (mkDBConn (name c) (sourceID c) (held c w k) (resetBaseConnFn c))) /\
    force_closed (trace (snd (executeSQL cls (Some c) (q0 :: queries) eargs w)))
    = rev (map (held c w) (seq 0 k)) ++ force_closed (trace w) /\
    executed (trace (snd (executeSQL cls (Some c) (q0 :: queries) eargs w)))
    = rev (map (held c w) (seq 0 (S k))) ++ executed (trace w) /\
    incs (trace (snd (executeSQL cls (Some c) (q0 :: queries) eargs w)))
    = repeat (name c, sourceID c) k ++ incs (trace w).
Proof.
  intros cls db c h q0 queries eargs w k Hh Hcap Hk Herr Hget Hdone Hok.
  destruct (executeSQL_loop_recovers cls (q0 :: queries) eargs db k 10 (mkOp c w) 0
                                     None None Hk Hcap Herr Hget Hdone Hok)
    as (Hres & Hself & Hfc & Hex & Hinc).
  unfold executeSQL, ApplyRetryStrategy. rewrite Hh.
  change (Z.to_nat (RetryCount (executeSQL_params cls))) with 10%nat.
  destruct (Apply_from 10 0 None None (executeSQL_params cls)
                       (executeSQL_operateFn (q0 :: queries) eargs) (mkOp c w))
    as [ro st'].
  cbn [fst snd self world] in Hres, Hself, Hfc, Hex, Hinc. subst ro.
  cbn [fst snd]. rewrite Hself. repeat split; assumption.
Qed.

Lemma executeSQL_recovers_lost_connections_witness :
  fst (executeSQL sample_classifier (Some sample_conn) ["DELETE FROM t"%string] []
                  lossy_world)
  = (Ok None,
     Some (mkDBConn (name sample_conn) (sourceID sample_conn)
                    (held sample_conn lossy_world 3) (resetBaseConnFn sample_conn))) /\
  force_closed (trace (snd (executeSQL sample_classifier (Some sample_conn)
                                       ["DELETE FROM t"%string] [] lossy_world)))
  = rev (map (held sample_conn lossy_world) (seq 0 3)) ++ force_closed (trace lossy_world) /\
  executed (trace (snd (executeSQL sample_classifier (Some sample_conn)
                                   ["DELETE FROM t"%string] [] lossy_world)))
  = rev (map (held sample_conn lossy_world) (seq 0 4)) ++ executed (trace lossy_world) /\
  incs (trace (snd (executeSQL sample_classifier (Some sample_conn)
                               ["DELETE FROM t"%string] [] lossy_world)))
  = repeat (name sample_conn, sourceID sample_conn) 3 ++ incs (trace lossy_world).
Proof.
  apply (executeSQL_recovers_lost_connections
           sample_classifier {| db_id := 0 |} sample_conn {| conn_id := 0 |}
           "DELETE FROM t" [] [] lossy_world 3).
  - reflexivity.
  - reflexivity.
  - lia.
  - intros j Hj. exists err_invalid_conn.
    destruct j as [|[|[|j]]]; [split; reflexivity ..|lia].
  - intros j _. eexists. reflexivity.
  - intros j _. reflexivity.
  - reflexivity.
Defined.

(** * What an operation returns, and the connection after it *)

(** X19. querySQL never returns rows together with an error: a result set whose
    deferred error ended the operation is not handed to the caller.  When
    querySQL or executeSQL returns an error from a connection that passed
    the validity test, the last record of the trace is the final error
    record, carrying exactly the error returned. *)
Theorem error_results_are_logged_last :
  forall (cls : Classifier) (conn : option DBConn) (w : World) (e : error),
    (forall (query : string) (args : list Arg) (r : option Rows),
        fst (fst (querySQL cls conn query args w)) = Ok (r, Some e) ->
        r = None /\
        (uninitialized conn = false ->
         exists t,
           trace (snd (querySQL cls conn query args w))
           = EvLog LogErrorFilterContextCanceled "query statement failed after retry"
                   None (Some e) :: t)) /\
    (forall (queries : list string) (eargs : list (list Arg)),
        fst (fst (executeSQL cls conn queries eargs w)) = Ok (Some e) ->
        uninitialized conn = false ->
        exists t,
          trace (snd (executeSQL cls conn queries eargs w))
          = EvLog LogErrorFilterContextCanceled "execute statements failed after retry"
                  None (Some e) :: t).
Proof.
  intros cls conn w e. split.
  - intros query args r. unfold querySQL.
    destruct conn as [c|]; [|simpl; intros H; inversion H; split; [reflexivity|discriminate]].
    simpl uninitialized.
    destruct (baseConn c) as [h|];
      [|simpl; intros H; inversion H; split; [reflexivity|discriminate]].
    destruct (ApplyRetryStrategy (querySQL_params cls) (querySQL_operateFn query args)
                                 (mkOp c w)) as [[[[r' i] [err|]]|why] st];
      simpl; intros H; inversion H; subst.
    split; [reflexivity|]. intros _. eexists. reflexivity.
  - intros queries eargs. unfold executeSQL.
    destruct queries as [|q0 queries]; [simpl; discriminate|].
    destruct conn as [c|]; [|simpl; discriminate].
    simpl uninitialized.
    destruct (baseConn c) as [h|]; [|simpl; discriminate].
    destruct (ApplyRetryStrategy (executeSQL_params cls)
                                 (executeSQL_operateFn (q0 :: queries) eargs)
                                 (mkOp c w)) as [[[[r' i] [err|]]|why] st];
      simpl; intros H; inversion H; subst.
    intros _. eexists. reflexivity.
Qed.

Lemma error_results_are_logged_last_witness :
  (None = (None : option Rows) /\
   (uninitialized (Some sample_conn) = false ->
    exists t,
      trace (snd (querySQL sample_classifier (Some sample_conn) "SELECT 1" []
                           duplicate_world))
      = EvLog LogErrorFilterContextCanceled "query statement failed after retry"
              None (Some (MySQLError 1062 "Duplicate entry")) :: t)) /\
  (exists t,
      trace (snd (executeSQL sample_classifier (Some sample_conn)
                             ["DELETE FROM t"%string] [] duplicate_world))
      = EvLog LogErrorFilterContextCanceled "execute statements failed after retry"
              None (Some (MySQLError 1062 "Duplicate entry")) :: t).
Proof.
  destruct (error_results_are_logged_last sample_classifier (Some sample_conn)
                                          duplicate_world
                                          (MySQLError 1062 "Duplicate entry"))
    as [Hq He].
  split.
  - apply (Hq "SELECT 1"%string [] None). reflexivity.
  - apply (He ["DELETE FROM t"%string] []); reflexivity.
Defined.

Lemma Apply_from_keeps {R : Type} (P : DBConn -> Prop) (params : Params)
      (op : M (option R * option error)) :
  (forall st, P (self st) -> P (self (snd (op st)))) ->
  (forall i e st, P (self st) -> P (self (snd (IsRetryableFn params i e st)))) ->
  forall (n : nat) (i : Z) (r0 : option R) (e0 : option error) (st : OpState),
    P (self st) -> P (self (snd (Apply_from n i r0 e0 params op st))).
Proof.
  intros Hop Hdec. induction n as [|n IH]; intros i r0 e0 st HP; [exact HP|].
  rewrite Apply_from_S.
  pose proof (Hop st HP) as H1.
  destruct (op st) as [[[r [e|]]|why] st1]; cbn [snd] in H1 |- *; try exact H1.
  pose proof (Hdec i e st1 H1) as H2.
  destruct (IsRetryableFn params i e st1) as [[[|]|why] st2]; cbn [snd] in H2 |- *;
    try exact H2.
  destruct (env_done (world st2) 0%nat); [exact H2|].
  apply IH. exact H2.
Qed.

Lemma resetConn_keeps_pool_conn (db : BaseDB) (nm sid : string) (st : OpState) :
  pool_conn db nm sid (self st) -> pool_conn db nm sid (self (snd (resetConn st))).
Proof.
  intros (Hu & Hcap & Hn & Hs). unfold resetConn. rewrite Hcap.
  unfold pool_resetBaseConnFn, ForceCloseConn, GetBaseConn. simpl.
  destruct (env_forceclose (world st) 0%nat); simpl;
    destruct (env_getconn (world st) 0%nat); simpl;
    repeat split; assumption.
Qed.

(** X20. A connection of the pool stays a ready connection of the same pool,
    with the same labels, through resetConn (succeeded or failed) and
    through any run of querySQL and executeSQL, however it ends: what an
    operation hands back can always be used for the next one. *)
Theorem pool_connection_stays_ready :
  forall (cls : Classifier) (db : BaseDB) (nm sid : string) (c : DBConn) (w : World),
    pool_conn db nm sid c ->
    pool_conn db nm sid (self (snd (resetConn (mkOp c w)))) /\
    (forall (query : string) (args : list Arg),
        exists c',
          snd (fst (querySQL cls (Some c) query args w)) = Some c' /\
          pool_conn db nm sid c') /\
    (forall (queries : list string) (eargs : list (list Arg)),
        exists c',
          snd (fst (executeSQL cls (Some c) queries eargs w)) = Some c' /\
          pool_conn db nm sid c').
Proof.
  intros cls db nm sid c w HP.
  assert (Hq : forall i e st, pool_conn db nm sid (self st) ->
                 pool_conn db nm sid (self (snd (querySQL_IsRetryableFn cls i e st)))).
  { intros i e st H. unfold querySQL_IsRetryableFn, bind.
    destruct (IsConnectionError cls e).
    - pose proof (resetConn_keeps_pool_conn db nm sid st H) as H'.
      destruct (resetConn st) as [[[re|]|why] st2]; exact H'.
    - destruct (IsRetryableError cls e); exact H. }
  assert (He : forall i e st, pool_conn db nm sid (self st) ->
                 pool_conn db nm sid (self (snd (executeSQL_IsRetryableFn cls i e st)))).
  { intros i e st H. unfold executeSQL_IsRetryableFn, bind, emit.
    destruct (IsConnectionError cls e).
    - pose proof (resetConn_keeps_pool_conn
                    db nm sid
                    (mkOp (self st) (push (EvInc (name (self st)) (sourceID (self st)))
                                          (world st))) H) as H'.
      destruct (resetConn (mkOp (self st)
                                (push (EvInc (name (self st)) (sourceID (self st)))
                                      (world st)))) as [[[re|]|why] st2]; exact H'.
    - destruct (IsRetryableError cls e); exact H. }
  split; [apply (resetConn_keeps_pool_conn db nm sid (mkOp c w) HP)|]. split.
  - intros query args.
    pose proof (Apply_from_keeps
                  (pool_conn db nm sid) (querySQL_params cls)
                  (querySQL_operateFn query args)
                  (fun st H =>
                     eq_ind_r (pool_conn db nm sid) H
                              (proj1 (querySQL_operateFn_spec query args st)))
                  Hq 10 0 None None (mkOp c w) HP) as H.
    unfold querySQL, ApplyRetryStrategy.
    destruct HP as (Hu & _). simpl in Hu.
    destruct (baseConn c) as [h|]; [|discriminate].
    change (Z.to_nat (RetryCount (querySQL_params cls))) with 10%nat.
    destruct (Apply_from 10 0 None None (querySQL_params cls)
                         (querySQL_operateFn query args) (mkOp c w))
      as [[[[r i] [e|]]|why] st]; cbn [snd] in H; eexists; split;
      try reflexivity; exact H.
  - intros queries eargs. unfold executeSQL.
    destruct queries as [|q0 queries]; [exists c; split; [reflexivity|exact HP]|].
    pose proof (Apply_from_keeps
                  (pool_conn db nm sid) (executeSQL_params cls)
                  (executeSQL_operateFn (q0 :: queries) eargs)
                  (fun st H =>
                     eq_ind_r (pool_conn db nm sid) H
                              (proj1 (proj2 (executeSQL_operateFn_spec
                                               (q0 :: queries) eargs st))))
                  He 10 0 None None (mkOp c w) HP) as H.
    unfold ApplyRetryStrategy.
    destruct HP as (Hu & _). simpl in Hu.
    destruct (baseConn c) as [h|]; [|discriminate].
    change (Z.to_nat (RetryCount (executeSQL_params cls))) with 10%nat.
    destruct (Apply_from 10 0 None None (executeSQL_params cls)
                         (executeSQL_operateFn (q0 :: queries) eargs) (mkOp c w))
      as [[[[r i] [e|]]|why] st]; cbn [snd] in H; eexists; split;
      try reflexivity; exact H.
Qed.

Lemma pool_connection_stays_ready_witness :
  pool_conn {| db_id := 0 |} "worker" "mysql-01"
            (self (snd (resetConn (mkOp sample_conn lossy_world)))) /\
  (exists c',
      snd (fst (querySQL sample_classifier (Some sample_conn) "SELECT 1" [] lossy_world))
      = Some c' /\
      pool_conn {| db_id := 0 |} "worker" "mysql-01" c') /\
  (exists c',
      snd (fst (executeSQL sample_classifier (Some sample_conn) ["DELETE FROM t"%string]
                           [] lossy_world))
      = Some c' /\
      pool_conn {| db_id := 0 |} "worker" "mysql-01" c').
Proof.
  destruct (pool_connection_stays_ready sample_classifier {| db_id := 0 |}
                                        "worker" "mysql-01" sample_conn lossy_world)
    as (Hr & Hq & He).
  - repeat split.
  - split; [exact Hr|]. split.
    + apply (Hq "SELECT 1"%string []).
    + apply (He ["DELETE FROM t"%string] []).
Defined.
